(** * ie-backend: authentication and post controllers

    A shallow embedding of the Express controllers (signup, login, logout,
    post create / list / update / delete) and of the authentication
    middleware, with
    the theorems that relate them to the written specification.

    Conventions of the embedding:
    - a field of [req.body] or a request header is an [option string]:
      [None] is JavaScript's [undefined], [Some EmptyString] the empty string, the
      two falsy values a string-typed field can take;
    - the MongoDB collections are lists of documents in natural
      (insertion) order; [findOne] returns the first match;
    - a handler threads the database through every awaited store call and
      keeps the writes made before an exception: there is no transaction
      in the source;
    - [bcryptjs], [jsonwebtoken] and the identifier helpers of [mongoose]
      are interfaces (type classes); what the handlers need from them is
      stated as a contract and a small executable instance shows that the
      contract can be met; the token round trip is settled on a model
      of the HS256 token format;
    - time is the NumericDate of [jsonwebtoken]: whole seconds. *)

From Stdlib Require Import String Ascii List ZArith Bool Lia DecimalPos DecimalZ.
Import ListNotations.
Local Open Scope string_scope.
Local Open Scope list_scope.

(** ** Values, errors and responses *)

(** The hexadecimal text of a MongoDB ObjectId. *)
Definition ObjectId := string.

Inductive error : Type :=
| ApiError (message : string) (statusCode : nat)
| ReferenceError (identifier : string)
| TypeError (message : string)
| JsonWebTokenError (message : string)
| TokenExpiredError
| CastError (value : string)
| MongoServerError (code : Z)
| Error (message : string).

(** [!v] on a string-or-undefined value. *)
Definition not_ (v : option string) : bool :=
  match v with
  | None => true
  | Some s => s =? EmptyString
  end.

(** The string held by a value known to be truthy. *)
Definition str (v : option string) : string :=
  match v with
  | Some s => s
  | None => EmptyString
  end.

Module User.
(** A document of the User collection. *)
Record t := make
  { _id : ObjectId;
    fullName : string;
    email : string;
    password : string;
    username : string }.
End User.

Module UserObject.
(** The plain object [doc.toObject()] of a User; [password] is [None]
    once [delete obj.password] ran. *)
Record t := make
  { _id : ObjectId;
    fullName : string;
    email : string;
    password : option string;
    username : string }.
End UserObject.

Module Post.
(** A document of the Post collection; its plain object has the same
    three fields. *)
Record t := make
  { _id : ObjectId;
    title : string;
    createdBy : ObjectId }.
End Post.

Module Author.
(** What [populate("createdBy", "fullName username")] keeps of a User. *)
Record t := make
  { _id : ObjectId;
    fullName : string;
    username : string }.
End Author.

Module PopulatedPost.
(** A post of the listing: [createdBy] replaced by its author, or by
    [null] when no User has that [_id]. *)
Record t := make
  { _id : ObjectId;
    title : string;
    createdBy : option Author.t }.
End PopulatedPost.

Record DB := mkDB
  { users : list User.t;
    posts : list Post.t }.

(** What the outside world supplies to one request: the clock, the salt
    drawn by [bcrypt.genSalt()] and the ObjectId generated for a new
    document. *)
Record Env := mkEnv
  { now : Z;
    salt : string;
    objectId : ObjectId }.

Inductive Data : Type :=
| DataNone
| DataPost (post : Post.t)
| DataPosts (posts : list PopulatedPost.t)
| DataUser (user : UserObject.t) (authToken : string).

Record Response := mkResponse
  { status : nat;
    message : string;
    data : Data;
    success : bool;
    clearedCookies : list string }.

(** [res.status(code).json({ message, data, success })] *)
Definition json (code : nat) (msg : string) (d : Data) (ok : bool) : Response :=
  mkResponse code msg d ok [].

(** [res.clearCookie(name)] before the response is sent. *)
Definition clearCookie (name : string) (r : Response) : Response :=
  mkResponse (status r) (message r) (data r) (success r) (name :: clearedCookies r).

Record Request (B : Type) := mkRequest
  { authorization : option string;
    body : B;
    user : option UserObject.t }.
Arguments mkRequest {B}.
Arguments authorization {B}.
Arguments body {B}.
Arguments user {B}.

Module SignupBody.
Record t := make
  { fullName : option string;
    email : option string;
    password : option string;
    username : option string }.
End SignupBody.

Module LoginBody.
Record t := make
  { user : option string;
    password : option string }.
End LoginBody.

Module CreateBody.
Record t := make { title : option string }.
End CreateBody.

Module UpdateBody.
Record t := make
  { title : option string;
    postId : option string }.
End UpdateBody.

Module DeleteBody.
Record t := make { postId : option string }.
End DeleteBody.

(** ** The handler monad: database state that survives a throw *)

Definition M (A : Type) : Type := DB -> DB * (error + A).

Definition ret {A} (a : A) : M A := fun db => (db, inr a).

Definition throw {A} (e : error) : M A := fun db => (db, inl e).

Definition bind {A B} (m : M A) (k : A -> M B) : M B :=
  fun db =>
    match m db with
    | (db', inr a) => k a db'
    | (db', inl e) => (db', inl e)
    end.

Definition when (c : bool) (m : M unit) : M unit :=
  if c then m else ret tt.

Declare Scope handler_scope.
Delimit Scope handler_scope with handler.
Notation "x <- m ;; k" := (bind m (fun x => k))
  (at level 61, m at next level, right associativity) : handler_scope.
Notation "m ;; k" := (bind m (fun _ => k))
  (at level 61, right associativity) : handler_scope.

(** What a controller did with [res] and [next]. *)
Inductive Outcome : Type :=
| Responded (res : Response)
| Next (err : error).

(** [try { ... return res... } catch (error) { next(error) }] *)
Definition try_next (m : M Response) (db : DB) : DB * Outcome :=
  match m db with
  | (db', inr r) => (db', Responded r)
  | (db', inl e) => (db', Next e)
  end.

(** Modelled from the spec: the centralized error responder that [next(error)]
    reaches is not among the sources. Section 7: handler errors "carry a
    message and status code" and are converted "into the uniform JSON
    envelope with success:false"; other errors are "surfaced as a generic
    failure without leaking internal detail" (rendered here as a 500). *)
Definition errorResponder (e : error) : Response :=
  match e with
  | ApiError msg code => json code msg DataNone false
  | _ => json 500 "Something went wrong" DataNone false
  end.

(** The HTTP response the client receives. *)
Definition respond (o : Outcome) : Response :=
  match o with
  | Responded r => r
  | Next e => errorResponder e
  end.

(** ** The libraries the handlers call *)

(** [bcryptjs]: [bcrypt.hash(password, salt)] and
    [bcrypt.compare(password, hash)]. *)
Class Bcrypt := mkBcrypt
  { bcrypt_hash : string -> string -> string;
    bcrypt_compare : string -> string -> bool }.

(** The object given to [jwt.sign] and returned by [jwt.verify]: the
    [user] property, and the [iat] / [exp] claims that signing adds. *)
Record JwtPayload := mkPayload
  { payload_user : option UserObject.t;
    iat : option Z;
    exp : option Z }.

(** [jsonwebtoken]: [jwt.sign(payload, secret, { expiresIn })] at a given
    clock reading, and [jwt.verify(token, secret)] at a given clock
    reading; both may throw. [expiresIn] is in seconds. *)
Class JsonWebToken := mkJsonWebToken
  { jwt_sign : JwtPayload -> string -> Z -> Z -> error + string;
    jwt_verify : string -> string -> Z -> error + JwtPayload }.

(** [mongoose.isValidObjectId(v)] and the cast of a query value to the
    ObjectId type of the [_id] path. *)
Class Mongoose := mkMongoose
  { isValidObjectId : string -> bool;
    castObjectId : string -> option ObjectId }.

(** [expiresIn: '1d'] *)
Definition expiresIn_1d : Z := 86400.

(** The characters of a compact JWS: base64url and the dot. *)
Definition jws_char (c : ascii) : bool :=
  let n := nat_of_ascii c in
  ((65 <=? n) && (n <=? 90) || (97 <=? n) && (n <=? 122)
   || (48 <=? n) && (n <=? 57) || (n =? 45) || (n =? 95) || (n =? 46))%nat.

Fixpoint jws_charset (s : string) : bool :=
  match s with
  | EmptyString => true
  | String c r => jws_char c && jws_charset r
  end.

(** What the handlers rely on from [jsonwebtoken]:
    - signing with a non-empty secret succeeds;
    - a token verifies under the secret that signed it, returning the
      payload with [iat] and [exp = iat + expiresIn], until the clock
      reaches [exp]; from then on verification throws TokenExpiredError;
    - a token is not the empty string, and only a string over the JWS
      alphabet can verify. *)
Record JwtContract (J : JsonWebToken) : Prop := mkJwtContract
  { sign_succeeds : forall p k span t,
      k <> EmptyString -> exists tok, jwt_sign p k span t = inr tok;
    verify_signed : forall u k span t tok clock,
      jwt_sign (mkPayload u None None) k span t = inr tok ->
      jwt_verify tok k clock =
        if (clock <? t + span)%Z
        then inr (mkPayload u (Some t) (Some (t + span)%Z))
        else inl TokenExpiredError;
    sign_nonempty : forall p k span t tok,
      jwt_sign p k span t = inr tok -> tok <> EmptyString;
    verify_charset : forall s k clock p,
      jwt_verify s k clock = inr p -> jws_charset s = true }.

(** ** The store: what Mongoose does on the two collections *)

Definition get_users : M (list User.t) := fun db => (db, inr (users db)).
Definition get_posts : M (list Post.t) := fun db => (db, inr (posts db)).
Definition put_users (us : list User.t) : M unit :=
  fun db => (mkDB us (posts db), inr tt).
Definition put_posts (ps : list Post.t) : M unit :=
  fun db => (mkDB (users db) ps, inr tt).

Local Open Scope handler_scope.

(** Replace the first document whose [_id] is [id] by its image under [f]. *)
Fixpoint updateOne (id : ObjectId) (f : Post.t -> Post.t) (ps : list Post.t)
  : list Post.t :=
  match ps with
  | [] => []
  | p :: r => if Post._id p =? id then f p :: r else p :: updateOne id f r
  end.

(** Remove the first document whose [_id] is [id]. *)
Fixpoint deleteOne (id : ObjectId) (ps : list Post.t) : list Post.t :=
  match ps with
  | [] => []
  | p :: r => if Post._id p =? id then r else p :: deleteOne id r
  end.

Module UserModel.

(** The filter [{ '$or': [{ email: e }, { username: u }] }]. *)
Definition email_or_username (e u : string) (d : User.t) : bool :=
  (User.email d =? e) || (User.username d =? u).

(** [User.findOne({ '$or': [{ email: e }, { username: u }] })] *)
Definition findOne_or (e u : string) : M (option User.t) :=
  us <- get_users ;;
  ret (find (email_or_username e u) us).

(** [doc.save()] of a new document: an insert; the collection's primary
    key refuses a second document with the same [_id] (E11000). *)
Definition save (d : User.t) : M unit :=
  us <- get_users ;;
  if existsb (fun x => User._id x =? User._id d) us
  then throw (MongoServerError 11000%Z)
  else put_users (us ++ [d]).

(** [doc.toObject()] *)
Definition toObject (d : User.t) : UserObject.t :=
  UserObject.make (User._id d) (User.fullName d) (User.email d)
    (Some (User.password d)) (User.username d).

(** [delete obj.password] *)
Definition delete_password (o : UserObject.t) : UserObject.t :=
  UserObject.make (UserObject._id o) (UserObject.fullName o)
    (UserObject.email o) None (UserObject.username o).

End UserModel.

Module PostModel.

(** The filter [{ _id: id, createdBy: owner }]. *)
Definition matches (id owner : ObjectId) (p : Post.t) : bool :=
  (Post._id p =? id) && (Post.createdBy p =? owner).

(** [Post.findOne({ _id: postId, createdBy: owner })], with [postId]
    cast to the type of the [_id] path first. *)
Definition findOne `{Mongoose} (postId : string) (owner : ObjectId)
  : M (option Post.t) :=
  match castObjectId postId with
  | None => throw (CastError postId)
  | Some id => ps <- get_posts ;; ret (find (matches id owner) ps)
  end.

(** [Post.create({ title, createdBy })]: a new document with a generated
    [_id], inserted. *)
Definition create (env : Env) (title : string) (createdBy : ObjectId)
  : M Post.t :=
  let d := Post.make (objectId env) title createdBy in
  ps <- get_posts ;;
  if existsb (fun x => Post._id x =? Post._id d) ps
  then throw (MongoServerError 11000%Z)
  else (put_posts (ps ++ [d]) ;; ret d).

(** [post.title = title] on the loaded document. *)
Definition set_title (title : string) (p : Post.t) : Post.t :=
  Post.make (Post._id p) title (Post.createdBy p).

(** [post.save()] of a loaded document whose only modified path is
    [title]: an update of that path on the stored document with the
    same [_id]. *)
Definition save (p : Post.t) : M unit :=
  ps <- get_posts ;;
  put_posts (updateOne (Post._id p) (set_title (Post.title p)) ps).

(** [post.delete()] *)
Definition delete (p : Post.t) : M unit :=
  ps <- get_posts ;;
  put_posts (deleteOne (Post._id p) ps).

(** [doc.toObject()] *)
Definition toObject (p : Post.t) : Post.t := p.

(** [populate("createdBy", "fullName username")] on one post. *)
Definition populate (us : list User.t) (p : Post.t) : PopulatedPost.t :=
  PopulatedPost.make (Post._id p) (Post.title p)
    (option_map
       (fun u => Author.make (User._id u) (User.fullName u) (User.username u))
       (find (fun u => User._id u =? Post.createdBy p) us)).

(** [Post.find().populate("createdBy", "fullName username").lean()] *)
Definition find_populated : M (list PopulatedPost.t) :=
  ps <- get_posts ;;
  us <- get_users ;;
  ret (map (populate us) ps).

End PostModel.

(** [user._id] on [req.user]: a TypeError when no middleware set it. *)
Definition member_id (u : option UserObject.t) : M ObjectId :=
  match u with
  | Some o => ret (UserObject._id o)
  | None => throw (TypeError "Cannot read properties of undefined (reading '_id')")
  end.

(** Evaluating an identifier that no enclosing scope declares. *)
Definition undeclared {A} (identifier : string) : M A :=
  throw (ReferenceError identifier).

(** Lifting a library call that may throw. *)
Definition call {A} (r : error + A) : M A := fun db => (db, r).

(** ** The controllers and the middleware *)

(** What the middleware did: called [next()] with [req.user] set, or
    answered itself after [console.log(error)]. *)
Inductive AuthResult (B : Type) : Type :=
| Proceed (req : Request B)
| Rejected (res : Response) (logged : error).
Arguments Proceed {B}.
Arguments Rejected {B}.

Section Controllers.

Context {bcrypt : Bcrypt} {jwt : JsonWebToken} {mongoose : Mongoose}.

(** [const { APPLICATION_SECRET } = require('../config')] *)
Variable APPLICATION_SECRET : string.

(** [postController.createPost] *)
Definition createPost (env : Env) (req : Request CreateBody.t)
  : DB -> DB * Outcome :=
  let title := CreateBody.title (body req) in
  let user := user req in
  try_next (
    when (not_ title)
      (throw (ApiError "Required fields are missing!" 400)) ;;
    createdBy <- member_id user ;;
    newPost <- PostModel.create env (str title) createdBy ;;
    let newPost := PostModel.toObject newPost in
    ret (json 201 "Post created successfully!" (DataPost newPost) true)).

(** [postController.fetchAllPosts] *)
Definition fetchAllPosts (env : Env) (req : Request unit)
  : DB -> DB * Outcome :=
  try_next (
    posts <- PostModel.find_populated ;;
    ret (json 200 "Posts fetched successfully!" (DataPosts posts) true)).

(** [postController.updatePost] *)
Definition updatePost (env : Env) (req : Request UpdateBody.t)
  : DB -> DB * Outcome :=
  let title := UpdateBody.title (body req) in
  let postId := UpdateBody.postId (body req) in
  let user := user req in
  try_next (
    when (not_ title || not_ postId || negb (isValidObjectId (str postId)))
      (throw (ApiError "Required fields are missing" 400)) ;;
    owner <- member_id user ;;
    post <- PostModel.findOne (str postId) owner ;;
    match post with
    | None =>
        throw (ApiError ("Post with id: " ++ str postId ++ " does not exist!") 404)
    | Some post =>
        let post := PostModel.set_title (str title) post in
        PostModel.save post ;;
        let post := PostModel.toObject post in
        ret (json 200 "Post updated successfully!" (DataPost post) true)
    end).

(** [postController.deletePost] *)
Definition deletePost (env : Env) (req : Request DeleteBody.t)
  : DB -> DB * Outcome :=
  let postId := DeleteBody.postId (body req) in
  let user := user req in
  try_next (
    when (not_ postId || negb (isValidObjectId (str postId)))
      (throw (ApiError "Required fields are missing" 400)) ;;
    owner <- member_id user ;;
    post <- PostModel.findOne (str postId) owner ;;
    match post with
    | None =>
        throw (ApiError ("Post with id: " ++ str postId ++ " does not exist!") 404)
    | Some post =>
        PostModel.delete post ;;
        let post := PostModel.toObject post in
        ret (json 200 "Post deleted successfully!" DataNone true)
    end).

(** [authController.signupUser]. The payload expression of [jwt.sign]
    reads [loggedInUser]; the function declares [newUser], [salt],
    [hashedPassword] and [authToken] only, the [let loggedInUser] of
    [loginUser] is local to that function and the module declares no
    such name, so that evaluating the expression throws before
    [jwt.sign] is called. *)
Definition signupUser (env : Env) (req : Request SignupBody.t)
  : DB -> DB * Outcome :=
  let fullName := SignupBody.fullName (body req) in
  let email := SignupBody.email (body req) in
  let password := SignupBody.password (body req) in
  let username := SignupBody.username (body req) in
  try_next (
    when (not_ fullName || not_ email || not_ password || not_ username)
      (throw (ApiError "Required fields are missing" 400)) ;;
    newUser <- UserModel.findOne_or (str email) (str username) ;;
    match newUser with
    | Some _ =>
        throw (ApiError "Account with same email or username already exists" 409)
    | None =>
        let salt := salt env in
        let hashedPassword := bcrypt_hash (str password) salt in
        let newUser :=
          User.make (objectId env) (str fullName) (str email) hashedPassword
            (str username) in
        UserModel.save newUser ;;
        let newUser := UserModel.delete_password (UserModel.toObject newUser) in
        loggedInUser <- undeclared "loggedInUser" ;;
        authToken <- call (jwt_sign (mkPayload (Some loggedInUser) None None)
                             APPLICATION_SECRET expiresIn_1d (now env)) ;;
        ret (json 201 "User signup successful!" (DataUser newUser authToken) true)
    end).

(** [authController.loginUser] *)
Definition loginUser (env : Env) (req : Request LoginBody.t)
  : DB -> DB * Outcome :=
  let user := LoginBody.user (body req) in
  let password := LoginBody.password (body req) in
  try_next (
    when (not_ user || not_ password)
      (throw (ApiError "Required fields are missing" 400)) ;;
    loggedInUser <- UserModel.findOne_or (str user) (str user) ;;
    match loggedInUser with
    | None => throw (ApiError "User does not exist!" 404)
    | Some loggedInUser =>
        let isValidPassword :=
          bcrypt_compare (str password) (User.password loggedInUser) in
        when (negb isValidPassword)
          (throw (ApiError "Invalid Password" 401)) ;;
        let loggedInUser :=
          UserModel.delete_password (UserModel.toObject loggedInUser) in
        authToken <- call (jwt_sign (mkPayload (Some loggedInUser) None None)
                             APPLICATION_SECRET expiresIn_1d (now env)) ;;
        ret (json 200 "User login successful!" (DataUser loggedInUser authToken) true)
    end).

(** [authController.logoutUser] *)
Definition logoutUser (env : Env) (req : Request unit)
  : DB -> DB * Outcome :=
  try_next (
    ret (clearCookie "authToken"
           (json 200 "User logout successful!" DataNone true))).

(** The [try] block of [auth]: the user it attaches, or the error thrown. *)
Definition auth_try (env : Env) (authToken : option string)
  : error + UserObject.t :=
  if not_ authToken then inl (Error "No Auth Token!")
  else
    match jwt_verify (str authToken) APPLICATION_SECRET (now env) with
    | inl e => inl e
    | inr decoded =>
        match payload_user decoded with
        | None => inl (Error "User object missing!")
        | Some u => inr u
        end
    end.

(** [res.clearCookie('authToken'); res.status(401).json({ ... })] *)
Definition accessDenied : Response :=
  clearCookie "authToken" (json 401 "Access Denied" DataNone false).

(** The [auth] middleware. *)
Definition auth {B} (env : Env) (req : Request B) : AuthResult B :=
  let authToken := authorization req in
  match auth_try env authToken with
  | inr u => Proceed (mkRequest (authorization req) (body req) (Some u))
  | inl e => Rejected accessDenied e
  end.

(** The guard on the four signup fields. *)
Definition signup_fields_missing (b : SignupBody.t) : bool :=
  not_ (SignupBody.fullName b) || not_ (SignupBody.email b)
  || not_ (SignupBody.password b) || not_ (SignupBody.username b).

(** The document that [new User({ ... })] builds for a signup. *)
Definition signup_document (env : Env) (b : SignupBody.t) : User.t :=
  User.make (objectId env) (str (SignupBody.fullName b))
    (str (SignupBody.email b))
    (bcrypt_hash (str (SignupBody.password b)) (salt env))
    (str (SignupBody.username b)).

(** One request to one of the seven routes. *)
Inductive Operation : Type :=
| Signup (req : Request SignupBody.t)
| Login (req : Request LoginBody.t)
| Logout (req : Request unit)
| Create (req : Request CreateBody.t)
| Fetch (req : Request unit)
| Update (req : Request UpdateBody.t)
| Delete (req : Request DeleteBody.t).

Definition run (env : Env) (op : Operation) : DB -> DB * Outcome :=
  match op with
  | Signup req => signupUser env req
  | Login req => loginUser env req
  | Logout req => logoutUser env req
  | Create req => createPost env req
  | Fetch req => fetchAllPosts env req
  | Update req => updatePost env req
  | Delete req => deletePost env req
  end.

(** The [postId] of a request body passes the handlers' checks and is
    cast to [id] by the query. *)
Definition denotes (postId : option string) (id : ObjectId) : Prop :=
  not_ postId = false /\
  isValidObjectId (str postId) = true /\
  castObjectId (str postId) = Some id.

End Controllers.

(** ** An executable instance of the three libraries

    Small stand-ins on which the handlers can be run: a salted "hash"
    that keeps the password readable, 24-digit hexadecimal ObjectIds, and
    a token format that spells its fields out in binary, each field
    closed by a dot, with the secret as the signature. They are not
    secure; they meet the contract above. *)

Module Sample.

Definition hash (password salt : string) : string := salt ++ "$" ++ password.

Fixpoint ends_with (suffix s : string) : bool :=
  (s =? suffix) ||
  match s with
  | EmptyString => false
  | String _ r => ends_with suffix r
  end.

Definition compare (password hashed : string) : bool :=
  ends_with ("$" ++ password) hashed.

#[export] Instance bcrypt : Bcrypt := mkBcrypt hash compare.

Definition hex_digit (c : ascii) : bool :=
  let n := nat_of_ascii c in
  ((48 <=? n) && (n <=? 57) || (97 <=? n) && (n <=? 102)
   || (65 <=? n) && (n <=? 70))%nat.

Fixpoint all_hex (s : string) : bool :=
  match s with
  | EmptyString => true
  | String c r => hex_digit c && all_hex r
  end.

Definition lower (c : ascii) : ascii :=
  let n := nat_of_ascii c in
  if ((65 <=? n) && (n <=? 70))%nat then ascii_of_nat (n + 32) else c.

Fixpoint lowercase (s : string) : string :=
  match s with
  | EmptyString => EmptyString
  | String c r => String (lower c) (lowercase r)
  end.

Definition valid (s : string) : bool := (String.length s =? 24)%nat && all_hex s.

Definition cast (s : string) : option ObjectId :=
  if valid s then Some (lowercase s) else None.

#[export] Instance mongoose : Mongoose := mkMongoose valid cast.

Definition bit (b : bool) : ascii := if b then "1"%char else "0"%char.

Definition unbit (c : ascii) : option bool :=
  if (c =? "0")%char then Some false
  else if (c =? "1")%char then Some true
  else None.

(** A field: eight binary digits per character, then a dot. *)
Fixpoint write_field (f rest : string) : string :=
  match f with
  | EmptyString => String "." rest
  | String (Ascii b0 b1 b2 b3 b4 b5 b6 b7) r =>
      String (bit b0) (String (bit b1) (String (bit b2) (String (bit b3)
        (String (bit b4) (String (bit b5) (String (bit b6) (String (bit b7)
          (write_field r rest))))))))
  end.

Fixpoint read_field (s : string) : option (string * string) :=
  match s with
  | EmptyString => None
  | String c0 r0 =>
      if (c0 =? ".")%char then Some (EmptyString, r0)
      else
        match r0 with
        | String c1 (String c2 (String c3 (String c4 (String c5 (String c6
            (String c7 r)))))) =>
            match unbit c0, unbit c1, unbit c2, unbit c3,
                  unbit c4, unbit c5, unbit c6, unbit c7, read_field r with
            | Some b0, Some b1, Some b2, Some b3,
              Some b4, Some b5, Some b6, Some b7, Some (f, rest) =>
                Some (String (Ascii b0 b1 b2 b3 b4 b5 b6 b7) f, rest)
            | _, _, _, _, _, _, _, _, _ => None
            end
        | _ => None
        end
  end.

Fixpoint write_pos (p : positive) : string :=
  match p with
  | xH => EmptyString
  | xO q => String "0" (write_pos q)
  | xI q => String "1" (write_pos q)
  end.

Fixpoint read_pos (s : string) : positive :=
  match s with
  | EmptyString => xH
  | String c r => if (c =? "1")%char then xI (read_pos r) else xO (read_pos r)
  end.

Definition write_Z (z : Z) : string :=
  match z with
  | Z0 => "z"
  | Zpos p => String "p" (write_pos p)
  | Zneg p => String "n" (write_pos p)
  end.

Definition read_Z (s : string) : Z :=
  match s with
  | String c r =>
      if (c =? "p")%char then Zpos (read_pos r)
      else if (c =? "n")%char then Zneg (read_pos r)
      else Z0
  | EmptyString => Z0
  end.

Definition write_option (o : option string) (rest : string) : string :=
  match o with
  | None => write_field "-" rest
  | Some s => write_field "+" (write_field s rest)
  end.

Definition read_option (s : string) : option (option string * string) :=
  match read_field s with
  | Some (tag, r) =>
      if tag =? "+" then
        match read_field r with
        | Some (v, r') => Some (Some v, r')
        | None => None
        end
      else if tag =? "-" then Some (None, r)
      else None
  | None => None
  end.

Definition write_user (u : option UserObject.t) (rest : string) : string :=
  match u with
  | None => write_field "-" rest
  | Some o =>
      write_field "+"
        (write_field (UserObject._id o)
          (write_field (UserObject.fullName o)
            (write_field (UserObject.email o)
              (write_option (UserObject.password o)
                (write_field (UserObject.username o) rest)))))
  end.

Definition read_user (s : string) : option (option UserObject.t * string) :=
  match read_field s with
  | Some (tag, r) =>
      if tag =? "+" then
        match read_field r with
        | Some (i, r1) =>
            match read_field r1 with
            | Some (n, r2) =>
                match read_field r2 with
                | Some (e, r3) =>
                    match read_option r3 with
                    | Some (p, r4) =>
                        match read_field r4 with
                        | Some (u, r5) => Some (Some (UserObject.make i n e p u), r5)
                        | None => None
                        end
                    | None => None
                    end
                | None => None
                end
            | None => None
            end
        | None => None
        end
      else if tag =? "-" then Some (None, r)
      else None
  | None => None
  end.

(** [user . iat . exp . secret .] *)
Definition sign (p : JwtPayload) (secret : string) (span t : Z)
  : error + string :=
  if secret =? EmptyString then inl (Error "secretOrPrivateKey must have a value")
  else
    inr (write_user (payload_user p)
          (write_field (write_Z t)
            (write_field (write_Z (t + span))
              (write_field secret EmptyString)))).

Definition verify (token secret : string) (clock : Z) : error + JwtPayload :=
  if negb (jws_charset token) then inl (JsonWebTokenError "invalid token")
  else
    match read_user token with
    | Some (u, r) =>
        match read_field r with
        | Some (i, r1) =>
            match read_field r1 with
            | Some (e, r2) =>
                match read_field r2 with
                | Some (k, EmptyString) =>
                    if negb (k =? secret)
                    then inl (JsonWebTokenError "invalid signature")
                    else if (clock <? read_Z e)%Z
                    then inr (mkPayload u (Some (read_Z i)) (Some (read_Z e)))
                    else inl TokenExpiredError
                | _ => inl (JsonWebTokenError "jwt malformed")
                end
            | None => inl (JsonWebTokenError "jwt malformed")
            end
        | None => inl (JsonWebTokenError "jwt malformed")
        end
    | None => inl (JsonWebTokenError "jwt malformed")
    end.

#[export] Instance jwt : JsonWebToken := mkJsonWebToken sign verify.

End Sample.

(** ** Store predicates used by the statements *)

(** MongoDB keeps [_id] unique within a collection. *)
Definition unique_ids (ps : list Post.t) : Prop := NoDup (map Post._id ps).

(** The stored post with a given [_id], if any. *)
Definition post_with_id (id : ObjectId) (ps : list Post.t) : option Post.t :=
  find (fun p => Post._id p =? id) ps.

(** Every post of [ps'] that carries the [_id] of a post of [ps] has that
    post's [createdBy]. *)
Definition keeps_createdBy (ps ps' : list Post.t) : Prop :=
  forall p p', In p ps -> In p' ps' ->
    Post._id p' = Post._id p -> Post.createdBy p' = Post.createdBy p.

(** ** A scenario on the sample libraries *)

Module Scenario.
Import Sample.

Definition secret : string := "s3cret".

Definition env0 : Env := mkEnv 1000 "salt" "507f1f77bcf86cd799439011".
Definition env1 : Env := mkEnv 2000 "pepper" "507f1f77bcf86cd799439012".
Definition env2 : Env := mkEnv 3000 "thyme" "507f1f77bcf86cd799439013".

Definition empty : DB := mkDB [] [].

Definition john_signup : Request SignupBody.t :=
  mkRequest None
    (SignupBody.make (Some "John Doe") (Some "doe.john@example.com")
       (Some "john.doe.123") (Some "doe.john"))
    None.

Definition john : User.t :=
  User.make "507f1f77bcf86cd799439011" "John Doe" "doe.john@example.com"
    "salt$john.doe.123" "doe.john".

Definition jane : User.t :=
  User.make "507f1f77bcf86cd799439012" "Jane Roe" "roe.jane@example.com"
    "pepper$jane.roe.456" "roe.jane".

Definition john_object : UserObject.t :=
  UserModel.delete_password (UserModel.toObject john).

Definition jane_object : UserObject.t :=
  UserModel.delete_password (UserModel.toObject jane).

Definition hello : Post.t :=
  Post.make "507f1f77bcf86cd799439013" "Hello" (User._id john).

Definition db_users : DB := mkDB [john; jane] [].
Definition db_posts : DB := mkDB [john; jane] [hello].

Definition john_login : Request LoginBody.t :=
  mkRequest None (LoginBody.make (Some "doe.john") (Some "john.doe.123")) None.

Definition john_create : Request CreateBody.t :=
  mkRequest (Some "token") (CreateBody.make (Some "Hello")) (Some john_object).

Definition john_update : Request UpdateBody.t :=
  mkRequest (Some "token")
    (UpdateBody.make (Some "Hello again") (Some "507f1f77bcf86cd799439013"))
    (Some john_object).

Definition jane_update : Request UpdateBody.t :=
  mkRequest (Some "token")
    (UpdateBody.make (Some "Mine now") (Some "507f1f77bcf86cd799439013"))
    (Some jane_object).

Definition jane_delete : Request DeleteBody.t :=
  mkRequest (Some "token")
    (DeleteBody.make (Some "507f1f77bcf86cd799439013"))
    (Some jane_object).

Definition john_token : string :=
  match sign (mkPayload (Some john_object) None None) secret expiresIn_1d 1000 with
  | inr tok => tok
  | inl _ => EmptyString
  end.

End Scenario.

(** ** Further notions: routes, store invariants, the hasher's contract *)

(** What the handlers rely on from [bcryptjs]: a password compares equal
    to a hash made from it, whatever the salt. *)
Record BcryptContract (C : Bcrypt) : Prop := mkBcryptContract
  { compare_hash : forall password salt,
      bcrypt_compare password (bcrypt_hash password salt) = true }.

(** [Router.post(path, auth, handler)]: the handler runs on the request
    that [auth] passed on, and not at all when [auth] answered. *)
Definition guarded {B} {jwt : JsonWebToken} (secret : string)
           (handler : Env -> Request B -> DB -> DB * Outcome)
           (env : Env) (req : Request B) (db : DB) : DB * Outcome :=
  match auth secret env req with
  | Proceed req' => handler env req' db
  | Rejected res _ => (db, Responded res)
  end.

(** The listing that [fetchAllPosts] sends for a store. *)
Definition listing (db : DB) : list PopulatedPost.t :=
  map (PostModel.populate (users db)) (posts db).

(** No two users share an [_id], an email or a username. *)
Definition unique_users (us : list User.t) : Prop :=
  NoDup (map User._id us)
  /\ NoDup (map User.email us)
  /\ NoDup (map User.username us).

(** Titles, names, emails and usernames in the store are not empty. *)
Definition fields_nonempty (db : DB) : Prop :=
  Forall (fun p => Post.title p <> EmptyString) (posts db)
  /\ Forall (fun u => User.fullName u <> EmptyString
                      /\ User.email u <> EmptyString
                      /\ User.username u <> EmptyString) (users db).

Module Scenario2.

Definition anonymous_update : Request UpdateBody.t :=
  mkRequest None
    (UpdateBody.make (Some "Hello again") (Some "507f1f77bcf86cd799439013"))
    None.

Definition john_delete : Request DeleteBody.t :=
  mkRequest (Some "token")
    (DeleteBody.make (Some "507f1f77bcf86cd799439013"))
    (Some Scenario.john_object).

Definition wrong_login : Request LoginBody.t :=
  mkRequest None (LoginBody.make (Some "doe.john") (Some "wrong")) None.

(** A signup whose username is the email of John. *)
Definition shadow_signup : Request SignupBody.t :=
  mkRequest None
    (SignupBody.make (Some "Mallory") (Some "mallory@example.com")
       (Some "letmein") (Some "doe.john@example.com"))
    None.

Definition shadow_login : Request LoginBody.t :=
  mkRequest None
    (LoginBody.make (Some "doe.john@example.com") (Some "letmein")) None.

Definition create_with_token : Request CreateBody.t :=
  mkRequest (Some Scenario.john_token) (CreateBody.make (Some "Hello")) None.

End Scenario2.

(** ** The token issuer and verifier

    Modelled from the spec: the Token Issuer/Verifier of section 4.2. The
    sources reach it as [jwt.sign] and [jwt.verify] of the jsonwebtoken
    package, which is not among them. The model is the HS256 compact
    serialisation which that package writes and reads: base64url of the
    header, base64url of the payload as JSON and base64url of the HMAC of
    the two, joined by dots. The HMAC itself is a parameter. Strings are
    byte strings; the JSON reader takes the objects that the writer
    makes, a [user] object with the keys of a user in document order
    followed by [iat] and [exp]. *)

Module Base64Url.

(** Six bits, the most significant first. *)
Definition sextet : Type := bool * bool * bool * bool * bool * bool.

Definition alphabet : string :=
  "ABCDEFGHIJKLMNOPQRSTUVWXYZabcdefghijklmnopqrstuvwxyz0123456789-_".

Definition bit_value (b : bool) (weight : nat) : nat := if b then weight else 0.

Definition index_of_sextet (s : sextet) : nat :=
  let '(s5, s4, s3, s2, s1, s0) := s in
  bit_value s5 32 + bit_value s4 16 + bit_value s3 8
  + bit_value s2 4 + bit_value s1 2 + bit_value s0 1.

Definition sextet_of_index (n : nat) : sextet :=
  (Nat.testbit n 5, Nat.testbit n 4, Nat.testbit n 3,
   Nat.testbit n 2, Nat.testbit n 1, Nat.testbit n 0).

Definition char_of_sextet (s : sextet) : ascii :=
  match String.get (index_of_sextet s) alphabet with
  | Some c => c
  | None => "A"%char
  end.

Fixpoint position (c : ascii) (s : string) (n : nat) : option nat :=
  match s with
  | EmptyString => None
  | String a r => if (a =? c)%char then Some n else position c r (S n)
  end.

Definition sextet_of_char (c : ascii) : option sextet :=
  option_map sextet_of_index (position c alphabet 0).

Definition is_base64url (c : ascii) : bool :=
  match sextet_of_char c with
  | Some _ => true
  | None => false
  end.

Fixpoint all_base64url (s : string) : bool :=
  match s with
  | EmptyString => true
  | String c r => is_base64url c && all_base64url r
  end.

(** The four sextets of three bytes. *)
Definition first_of (a b c : ascii) : list sextet :=
  let '(Ascii a0 a1 a2 a3 a4 a5 a6 a7) := a in
  let '(Ascii b0 b1 b2 b3 b4 b5 b6 b7) := b in
  let '(Ascii c0 c1 c2 c3 c4 c5 c6 c7) := c in
  [(a7, a6, a5, a4, a3, a2); (a1, a0, b7, b6, b5, b4);
   (b3, b2, b1, b0, c7, c6); (c5, c4, c3, c2, c1, c0)].

Definition byte1 (w x : sextet) : ascii :=
  let '(w5, w4, w3, w2, w1, w0) := w in
  let '(x5, x4, _, _, _, _) := x in
  Ascii x4 x5 w0 w1 w2 w3 w4 w5.

Definition byte2 (x y : sextet) : ascii :=
  let '(_, _, x3, x2, x1, x0) := x in
  let '(y5, y4, y3, y2, _, _) := y in
  Ascii y2 y3 y4 y5 x0 x1 x2 x3.

Definition byte3 (y z : sextet) : ascii :=
  let '(_, _, _, _, y1, y0) := y in
  let '(z5, z4, z3, z2, z1, z0) := z in
  Ascii z0 z1 z2 z3 z4 z5 y0 y1.

(** Base64url without padding (RFC 4648, section 5). *)
Fixpoint encode (s : string) : string :=
  match s with
  | EmptyString => EmptyString
  | String a EmptyString =>
      match first_of a zero zero with
      | [w; x; _; _] =>
          String (char_of_sextet w) (String (char_of_sextet x) EmptyString)
      | _ => EmptyString
      end
  | String a (String b EmptyString) =>
      match first_of a b zero with
      | [w; x; y; _] =>
          String (char_of_sextet w) (String (char_of_sextet x)
            (String (char_of_sextet y) EmptyString))
      | _ => EmptyString
      end
  | String a (String b (String c r)) =>
      match first_of a b c with
      | [w; x; y; z] =>
          String (char_of_sextet w) (String (char_of_sextet x)
            (String (char_of_sextet y) (String (char_of_sextet z) (encode r))))
      | _ => EmptyString
      end
  end.

Fixpoint decode (s : string) : option string :=
  match s with
  | EmptyString => Some EmptyString
  | String _ EmptyString => None
  | String cw (String cx EmptyString) =>
      match sextet_of_char cw, sextet_of_char cx with
      | Some w, Some x => Some (String (byte1 w x) EmptyString)
      | _, _ => None
      end
  | String cw (String cx (String cy EmptyString)) =>
      match sextet_of_char cw, sextet_of_char cx, sextet_of_char cy with
      | Some w, Some x, Some y =>
          Some (String (byte1 w x) (String (byte2 x y) EmptyString))
      | _, _, _ => None
      end
  | String cw (String cx (String cy (String cz r))) =>
      match sextet_of_char cw, sextet_of_char cx, sextet_of_char cy,
            sextet_of_char cz, decode r with
      | Some w, Some x, Some y, Some z, Some t =>
          Some (String (byte1 w x) (String (byte2 x y) (String (byte3 y z) t)))
      | _, _, _, _, _ => None
      end
  end.

End Base64Url.


Module Json.
Local Open Scope string_scope.

Definition quote : ascii := ascii_of_nat 34.
Definition backslash : ascii := ascii_of_nat 92.

Definition hex_digits : string := "0123456789abcdef".

Definition hex_char (n : nat) : ascii :=
  match String.get n hex_digits with
  | Some c => c
  | None => "0"%char
  end.

Definition hex_value (c : ascii) : option nat :=
  let n := nat_of_ascii c in
  if ((48 <=? n) && (n <=? 57))%nat then Some (n - 48)%nat
  else if ((97 <=? n) && (n <=? 102))%nat then Some (n - 87)%nat
  else if ((65 <=? n) && (n <=? 70))%nat then Some (n - 55)%nat
  else None.

(** One character of a string, as [JSON.stringify] writes it. *)
Definition write_char (c : ascii) (rest : string) : string :=
  let n := nat_of_ascii c in
  if (n =? 34)%nat then String backslash (String quote rest)
  else if (n =? 92)%nat then String backslash (String backslash rest)
  else if (n =? 8)%nat then String backslash (String "b" rest)
  else if (n =? 12)%nat then String backslash (String "f" rest)
  else if (n =? 10)%nat then String backslash (String "n" rest)
  else if (n =? 13)%nat then String backslash (String "r" rest)
  else if (n =? 9)%nat then String backslash (String "t" rest)
  else if (n <? 32)%nat then
    String backslash (String "u" (String "0" (String "0"
      (String (hex_char (n / 16)) (String (hex_char (n mod 16)) rest)))))
  else String c rest.

Fixpoint write_chars (s rest : string) : string :=
  match s with
  | EmptyString => rest
  | String c r => write_char c (write_chars r rest)
  end.

Definition write_string (s rest : string) : string :=
  String quote (write_chars s (String quote rest)).

Definition cons_char (c : ascii) (r : option (string * string))
  : option (string * string) :=
  match r with
  | Some (s, rest) => Some (String c s, rest)
  | None => None
  end.

(** The characters of a JSON string up to its closing quote. *)
Fixpoint read_chars (s : string) : option (string * string) :=
  match s with
  | EmptyString => None
  | String c r =>
      if (c =? quote)%char then Some (EmptyString, r)
      else if (c =? backslash)%char then
        match r with
        | EmptyString => None
        | String e r1 =>
            if (e =? quote)%char then cons_char quote (read_chars r1)
            else if (e =? backslash)%char then cons_char backslash (read_chars r1)
            else if (e =? "/")%char then cons_char "/" (read_chars r1)
            else if (e =? "b")%char then cons_char (ascii_of_nat 8) (read_chars r1)
            else if (e =? "f")%char then cons_char (ascii_of_nat 12) (read_chars r1)
            else if (e =? "n")%char then cons_char (ascii_of_nat 10) (read_chars r1)
            else if (e =? "r")%char then cons_char (ascii_of_nat 13) (read_chars r1)
            else if (e =? "t")%char then cons_char (ascii_of_nat 9) (read_chars r1)
            else if (e =? "u")%char then
              match r1 with
              | String h1 (String h2 (String h3 (String h4 r2))) =>
                  match hex_value h1, hex_value h2, hex_value h3, hex_value h4 with
                  | Some 0%nat, Some 0%nat, Some hi, Some lo =>
                      if (hi <? 8)%nat
                      then cons_char (ascii_of_nat (16 * hi + lo)) (read_chars r2)
                      else None
                  | _, _, _, _ => None
                  end
              | _ => None
              end
            else None
        end
      else if (nat_of_ascii c <? 32)%nat then None
      else cons_char c (read_chars r)
  end.

Definition read_string (s : string) : option (string * string) :=
  match s with
  | String c r => if (c =? quote)%char then read_chars r else None
  | EmptyString => None
  end.

(** Strip a literal prefix. *)
Fixpoint expect (lit s : string) : option string :=
  match lit with
  | EmptyString => Some s
  | String c l =>
      match s with
      | String d r => if (c =? d)%char then expect l r else None
      | EmptyString => None
      end
  end.

Fixpoint write_uint (u : Decimal.uint) (rest : string) : string :=
  match u with
  | Decimal.Nil => rest
  | Decimal.D0 v => String "0" (write_uint v rest)
  | Decimal.D1 v => String "1" (write_uint v rest)
  | Decimal.D2 v => String "2" (write_uint v rest)
  | Decimal.D3 v => String "3" (write_uint v rest)
  | Decimal.D4 v => String "4" (write_uint v rest)
  | Decimal.D5 v => String "5" (write_uint v rest)
  | Decimal.D6 v => String "6" (write_uint v rest)
  | Decimal.D7 v => String "7" (write_uint v rest)
  | Decimal.D8 v => String "8" (write_uint v rest)
  | Decimal.D9 v => String "9" (write_uint v rest)
  end.

Definition digit (c : ascii) : option (Decimal.uint -> Decimal.uint) :=
  if (c =? "0")%char then Some Decimal.D0
  else if (c =? "1")%char then Some Decimal.D1
  else if (c =? "2")%char then Some Decimal.D2
  else if (c =? "3")%char then Some Decimal.D3
  else if (c =? "4")%char then Some Decimal.D4
  else if (c =? "5")%char then Some Decimal.D5
  else if (c =? "6")%char then Some Decimal.D6
  else if (c =? "7")%char then Some Decimal.D7
  else if (c =? "8")%char then Some Decimal.D8
  else if (c =? "9")%char then Some Decimal.D9
  else None.

Fixpoint read_uint (s : string) : Decimal.uint * string :=
  match s with
  | EmptyString => (Decimal.Nil, EmptyString)
  | String c r =>
      match digit c with
      | Some d => let (u, rest) := read_uint r in (d u, rest)
      | None => (Decimal.Nil, s)
      end
  end.

(** An integer, as [JSON.stringify] writes it. *)
Definition write_Z (z : Z) (rest : string) : string :=
  match Z.to_int z with
  | Decimal.Pos u => write_uint u rest
  | Decimal.Neg u => String "-" (write_uint u rest)
  end.

Definition read_Z (s : string) : option (Z * string) :=
  match expect "-" s with
  | Some r =>
      match read_uint r with
      | (Decimal.Nil, _) => None
      | (u, rest) => Some (Z.of_int (Decimal.Neg u), rest)
      end
  | None =>
      match read_uint s with
      | (Decimal.Nil, _) => None
      | (u, rest) => Some (Z.of_int (Decimal.Pos u), rest)
      end
  end.

(** ["name":] *)
Definition key (name : string) : string :=
  String quote (name ++ String quote ":").

Definition write_password (p : option string) (rest : string) : string :=
  match p with
  | Some h => "," ++ key "password" ++ write_string h rest
  | None => rest
  end.

(** The user object, keys in the order of the document: [_id], then the
    fields in the order [new User({ ... })] lists them. *)
Definition write_user (o : UserObject.t) (rest : string) : string :=
  "{" ++ key "_id" ++ write_string (UserObject._id o)
  ("," ++ key "fullName" ++ write_string (UserObject.fullName o)
  ("," ++ key "email" ++ write_string (UserObject.email o)
  (write_password (UserObject.password o)
  ("," ++ key "username" ++ write_string (UserObject.username o)
  ("}" ++ rest))))).

Definition read_password (s : string) : option (option string * string) :=
  match expect ("," ++ key "password") s with
  | Some r =>
      match read_string r with
      | Some (h, rest) => Some (Some h, rest)
      | None => None
      end
  | None => Some (None, s)
  end.

Definition read_user (s : string) : option (UserObject.t * string) :=
  match expect ("{" ++ key "_id") s with
  | None => None
  | Some s1 =>
  match read_string s1 with
  | None => None
  | Some (i, s2) =>
  match expect ("," ++ key "fullName") s2 with
  | None => None
  | Some s3 =>
  match read_string s3 with
  | None => None
  | Some (n, s4) =>
  match expect ("," ++ key "email") s4 with
  | None => None
  | Some s5 =>
  match read_string s5 with
  | None => None
  | Some (e, s6) =>
  match read_password s6 with
  | None => None
  | Some (p, s7) =>
  match expect ("," ++ key "username") s7 with
  | None => None
  | Some s8 =>
  match read_string s8 with
  | None => None
  | Some (u, s9) =>
  match expect "}" s9 with
  | None => None
  | Some rest => Some (UserObject.make i n e p u, rest)
  end end end end end end end end end end.

(** [JSON.stringify({ user, iat, exp })]; an undefined [user] is left
    out. *)
Definition write_payload (u : option UserObject.t) (iat exp : Z) : string :=
  "{" ++
  match u with
  | Some o => key "user" ++ write_user o ("," ++ key "iat" ++
                write_Z iat ("," ++ key "exp" ++ write_Z exp "}"))
  | None => key "iat" ++ write_Z iat ("," ++ key "exp" ++ write_Z exp "}")
  end.

Definition read_claims (u : option UserObject.t) (s : string)
  : option JwtPayload :=
  match expect (key "iat") s with
  | None => None
  | Some s1 =>
  match read_Z s1 with
  | None => None
  | Some (i, s2) =>
      match expect "}" s2 with
      | Some EmptyString => Some (mkPayload u (Some i) None)
      | Some _ => None
      | None =>
          match expect ("," ++ key "exp") s2 with
          | None => None
          | Some s3 =>
          match read_Z s3 with
          | None => None
          | Some (e, s4) =>
              match expect "}" s4 with
              | Some EmptyString => Some (mkPayload u (Some i) (Some e))
              | _ => None
              end
          end end
      end
  end end.

Definition read_payload (s : string) : option JwtPayload :=
  match expect "{" s with
  | None => None
  | Some s1 =>
      match expect (key "user") s1 with
      | Some s2 =>
          match read_user s2 with
          | Some (o, s3) =>
              match expect "," s3 with
              | Some s4 => read_claims (Some o) s4
              | None => None
              end
          | None => None
          end
      | None => read_claims None s1
      end
  end.

End Json.

Module Jws.
Local Open Scope string_scope.

(** The dot-separated segments of a string. *)
Fixpoint segments (s : string) : list string :=
  match s with
  | EmptyString => [EmptyString]
  | String c r =>
      if (c =? ".")%char then EmptyString :: segments r
      else
        match segments r with
        | seg :: rest => String c seg :: rest
        | [] => [String c EmptyString]
        end
  end.

(** [{"alg":"HS256","typ":"JWT"}] *)
Definition header : string :=
  "{" ++ Json.key "alg" ++ Json.write_string "HS256"
  ("," ++ Json.key "typ" ++ Json.write_string "JWT" "}").

Definition nonempty (s : string) : bool :=
  match s with
  | EmptyString => false
  | String _ _ => true
  end.

Section Hmac.

(** HMAC-SHA256 of a message under a key: [hmac key message]. *)
Variable hmac : string -> string -> string.

Definition signature (secret input : string) : string :=
  Base64Url.encode (hmac secret input).

(** Modelled from the spec: [issue] of section 4.2, "a signed token
    embedding userSnapshot and an expiry exactly 1 day from issuance",
    as [jwt.sign(payload, secret, { expiresIn })] at the clock reading
    [t]: refused without a secret or when the payload brings an [exp] of
    its own; [iat] is the payload's own or the clock, [exp] is
    [iat + expiresIn]. *)
Definition sign (p : JwtPayload) (secret : string) (span t : Z)
  : error + string :=
  if secret =? EmptyString
  then inl (Error "secretOrPrivateKey must have a value")
  else
    match exp p with
    | Some _ =>
        inl (Error "Bad options.expiresIn option the payload already has an exp property.")
    | None =>
        let timestamp :=
          match iat p with
          | Some i => if (i =? 0)%Z then t else i
          | None => t
          end in
        let input : string :=
          (Base64Url.encode header ++ "." ++
           Base64Url.encode
             (Json.write_payload (payload_user p) timestamp (timestamp + span))
          )%string in
        inr (input ++ "." ++ signature secret input)%string
    end.

(** Modelled from the spec: [verify] of section 4.2, as
    [jwt.verify(token, secret)] at a clock reading: three segments over
    the base64url alphabet, a header and a payload that decode, a
    signature equal to the one recomputed under the secret ("fails ... if
    signature does not match"), and a clock below [exp] (section 8: valid
    "while current time < issuance + 1 day", "Expired" from then on).
    "Returns the embedded snapshot exactly as issued". *)
Definition verify (token secret : string) (clock : Z) : error + JwtPayload :=
  if negb (nonempty token)
  then inl (JsonWebTokenError "jwt must be provided")
  else
  match segments token with
  | [h; p; sg] =>
      if negb (nonempty h && Base64Url.all_base64url h
               && nonempty p && Base64Url.all_base64url p
               && Base64Url.all_base64url sg)
      then inl (JsonWebTokenError "invalid token")
      else
        match Base64Url.decode h, Base64Url.decode p with
        | Some hj, Some pj =>
            match Json.read_payload pj with
            | None => inl (JsonWebTokenError "invalid token")
            | Some payload =>
                if negb (nonempty sg)
                then inl (JsonWebTokenError "jwt signature is required")
                else if secret =? EmptyString
                then inl (JsonWebTokenError "secret or public key must be provided")
                else if negb (hj =? header)
                then inl (JsonWebTokenError "invalid algorithm")
                else if negb (sg =? signature secret (h ++ "." ++ p)%string)
                then inl (JsonWebTokenError "invalid signature")
                else
                  match exp payload with
                  | Some e =>
                      if (e <=? clock)%Z then inl TokenExpiredError
                      else inr payload
                  | None => inr payload
                  end
            end
        | _, _ => inl (JsonWebTokenError "invalid token")
        end
  | _ => inl (JsonWebTokenError "jwt malformed")
  end.

(** Modelled from the spec: the issuer and verifier as the library that
    the handlers call. *)
Definition jwt : JsonWebToken := mkJsonWebToken sign verify.

End Hmac.

End Jws.

Module Stand.
(** A stand-in for HMAC-SHA256 on which the scenario can be run. *)
Definition hmac (key message : string) : string :=
  String "#" (key ++ message).
End Stand.

(** * Proofs *)

(** ** The sample token format meets the contract *)

Module SampleFacts.
Import Sample.

Lemma read_write_field (f rest : string) :
  read_field (write_field f rest) = Some (f, rest).
Proof.
  induction f as [|a f IH]; [reflexivity|].
  destruct a as [[] [] [] [] [] [] [] []]; cbn -[read_field write_field];
    cbn [write_field]; cbn [read_field]; cbn -[read_field write_field];
    rewrite IH; reflexivity.
Qed.

Lemma charset_write_field (f rest : string) :
  jws_charset (write_field f rest) = jws_charset rest.
Proof.
  induction f as [|a f IH]; [reflexivity|].
  destruct a as [[] [] [] [] [] [] [] []]; cbn [write_field jws_charset];
    rewrite IH; reflexivity.
Qed.

Lemma write_field_nonempty (f rest : string) : write_field f rest <> EmptyString.
Proof.
  destruct f as [|[b0 b1 b2 b3 b4 b5 b6 b7] f]; discriminate.
Qed.

Lemma read_write_pos (p : positive) : read_pos (write_pos p) = p.
Proof.
  induction p as [p IH|p IH|]; cbn; [rewrite IH|rewrite IH|]; reflexivity.
Qed.

Lemma read_write_Z (z : Z) : read_Z (write_Z z) = z.
Proof.
  destruct z; cbn; [reflexivity|rewrite read_write_pos ..]; reflexivity.
Qed.

Lemma read_write_option (o : option string) (rest : string) :
  read_option (write_option o rest) = Some (o, rest).
Proof.
  unfold read_option, write_option.
  destruct o; rewrite read_write_field; cbn [String.eqb Ascii.eqb Bool.eqb];
    [rewrite read_write_field|]; reflexivity.
Qed.

Lemma charset_write_option (o : option string) (rest : string) :
  jws_charset (write_option o rest) = jws_charset rest.
Proof.
  destruct o; cbn [write_option]; rewrite ?charset_write_field; reflexivity.
Qed.

Lemma read_write_user (u : option UserObject.t) (rest : string) :
  read_user (write_user u rest) = Some (u, rest).
Proof.
  unfold read_user, write_user.
  destruct u as [[i n e p un]|]; rewrite read_write_field;
    cbn [String.eqb Ascii.eqb Bool.eqb]; [|reflexivity].
  cbn [UserObject._id UserObject.fullName UserObject.email
       UserObject.password UserObject.username].
  rewrite !read_write_field, read_write_option, read_write_field.
  reflexivity.
Qed.

Lemma charset_write_user (u : option UserObject.t) (rest : string) :
  jws_charset (write_user u rest) = jws_charset rest.
Proof.
  destruct u; cbn [write_user];
    rewrite ?charset_write_field, ?charset_write_option, ?charset_write_field;
    reflexivity.
Qed.

Lemma write_user_nonempty (u : option UserObject.t) (rest : string) :
  write_user u rest <> EmptyString.
Proof.
  destruct u; apply write_field_nonempty.
Qed.

Lemma contract : JwtContract Sample.jwt.
Proof.
  constructor; cbn [jwt_sign jwt_verify Sample.jwt]; unfold sign, verify.
  - intros p k span t Hk.
    destruct (String.eqb_spec k EmptyString) as [->|_]; [contradiction|eauto].
  - intros u k span t tok clock.
    destruct (String.eqb_spec k EmptyString) as [->|_]; [discriminate|].
    intros [= <-]. cbn [payload_user].
    rewrite charset_write_user, !charset_write_field. cbn [jws_charset negb].
    rewrite read_write_user, !read_write_field, String.eqb_refl.
    cbn [negb]. rewrite !read_write_Z. reflexivity.
  - intros p k span t tok.
    destruct (k =? EmptyString); [discriminate|].
    intros [= <-]. apply write_user_nonempty.
  - intros s k clock p.
    destruct (jws_charset s); [reflexivity|discriminate].
Qed.

End SampleFacts.

(** ** Store lemmas *)

Lemma find_none_of {A} (f : A -> bool) (l : list A) :
  (forall x, In x l -> f x = false) -> find f l = None.
Proof.
  induction l as [|a l IH]; intros Hall; [reflexivity|].
  cbn. rewrite (Hall a (or_introl eq_refl)).
  apply IH. intros x Hx. apply Hall. right. exact Hx.
Qed.

Lemma existsb_false_of {A} (f : A -> bool) (l : list A) :
  (forall x, In x l -> f x = false) -> existsb f l = false.
Proof.
  induction l as [|a l IH]; intros Hall; [reflexivity|].
  cbn. rewrite (Hall a (or_introl eq_refl)).
  apply IH. intros x Hx. apply Hall. right. exact Hx.
Qed.

Lemma find_some_of {A} (f : A -> bool) (l : list A) (x : A) :
  In x l -> f x = true -> exists y, find f l = Some y.
Proof.
  induction l as [|a l IH]; intros Hin Hf; [contradiction|].
  cbn. destruct (f a) eqn:Ha; [eauto|].
  destruct Hin as [->|Hin]; [congruence|auto].
Qed.

Lemma find_app_new {A} (f : A -> bool) (l : list A) (x : A) :
  f x = true -> exists y, find f (l ++ [x]) = Some y.
Proof.
  intros Hf. apply find_some_of with (x := x); [|exact Hf].
  apply in_or_app. right. left. reflexivity.
Qed.

Lemma email_or_username_false (e u : string) (d : User.t) :
  User.email d <> e -> User.username d <> u ->
  UserModel.email_or_username e u d = false.
Proof.
  intros He Hu. unfold UserModel.email_or_username.
  apply String.eqb_neq in He. apply String.eqb_neq in Hu.
  rewrite He, Hu. reflexivity.
Qed.

Lemma email_or_username_true (e u : string) (d : User.t) :
  User.email d = e \/ User.username d = u ->
  UserModel.email_or_username e u d = true.
Proof.
  unfold UserModel.email_or_username.
  intros [<-|<-]; rewrite String.eqb_refl; [reflexivity|apply orb_true_r].
Qed.

(** Unfolding a handler down to the store operations. *)
Ltac run_handler :=
  cbv beta delta
    [try_next bind ret throw when call undeclared member_id
     UserModel.findOne_or UserModel.save PostModel.findOne PostModel.create
     PostModel.save PostModel.delete PostModel.toObject PostModel.find_populated
     get_users get_posts put_users put_posts] iota zeta.

(** ** The authentication controllers *)

Section AuthFacts.

Context {bcrypt : Bcrypt} {jwt : JsonWebToken}.
Variable APPLICATION_SECRET : string.

Lemma signupUser_missing (env : Env) (req : Request SignupBody.t) (db : DB) :
  signup_fields_missing (body req) = true ->
  signupUser APPLICATION_SECRET env req db = (db, Next (ApiError "Required fields are missing" 400)).
Proof.
  unfold signup_fields_missing, signupUser. intros H.
  run_handler. rewrite H. reflexivity.
Qed.

Lemma signupUser_existing (env : Env) (req : Request SignupBody.t) (db : DB)
      (d : User.t) :
  signup_fields_missing (body req) = false ->
  find (UserModel.email_or_username (str (SignupBody.email (body req)))
          (str (SignupBody.username (body req)))) (users db) = Some d ->
  signupUser APPLICATION_SECRET env req db =
    (db, Next (ApiError "Account with same email or username already exists" 409)).
Proof.
  unfold signup_fields_missing, signupUser. intros H Hfind.
  run_handler. rewrite H, Hfind. reflexivity.
Qed.

Lemma signupUser_new (env : Env) (req : Request SignupBody.t) (db : DB) :
  signup_fields_missing (body req) = false ->
  find (UserModel.email_or_username (str (SignupBody.email (body req)))
          (str (SignupBody.username (body req)))) (users db) = None ->
  existsb (fun x => User._id x =? objectId env) (users db) = false ->
  signupUser APPLICATION_SECRET env req db =
    (mkDB (users db ++ [signup_document env (body req)]) (posts db),
     Next (ReferenceError "loggedInUser")).
Proof.
  unfold signup_fields_missing, signupUser. intros H Hfind Hfresh.
  run_handler. rewrite H, Hfind. cbn [users User._id]. rewrite Hfresh.
  reflexivity.
Qed.

Lemma loginUser_missing (env : Env) (req : Request LoginBody.t) (db : DB) :
  not_ (LoginBody.user (body req)) || not_ (LoginBody.password (body req)) = true ->
  loginUser APPLICATION_SECRET env req db =
    (db, Next (ApiError "Required fields are missing" 400)).
Proof.
  unfold loginUser. intros H. run_handler. rewrite H. reflexivity.
Qed.



Lemma loginUser_signed (env : Env) (req : Request LoginBody.t) (db : DB)
      (d : User.t) (tok : string) :
  not_ (LoginBody.user (body req)) || not_ (LoginBody.password (body req)) = false ->
  find (UserModel.email_or_username (str (LoginBody.user (body req)))
          (str (LoginBody.user (body req)))) (users db) = Some d ->
  bcrypt_compare (str (LoginBody.password (body req))) (User.password d) = true ->
  jwt_sign (mkPayload (Some (UserModel.delete_password (UserModel.toObject d)))
              None None)
    APPLICATION_SECRET expiresIn_1d (now env) = inr tok ->
  loginUser APPLICATION_SECRET env req db =
    (db, Responded (json 200 "User login successful!"
                      (DataUser (UserModel.delete_password (UserModel.toObject d)) tok)
                      true)).
Proof.
  unfold loginUser. intros H Hfind Hcmp Hsign. run_handler.
  rewrite H, Hfind, Hcmp. cbn [negb]. rewrite Hsign. reflexivity.
Qed.

(** Whatever a login does, it writes nothing. *)
Lemma loginUser_reads_only (env : Env) (req : Request LoginBody.t) (db : DB) :
  fst (loginUser APPLICATION_SECRET env req db) = db.
Proof.
  unfold loginUser. run_handler.
  destruct (not_ _ || not_ _); [reflexivity|].
  destruct (find _ _); [|reflexivity].
  destruct (bcrypt_compare _ _); cbn [negb]; [|reflexivity].
  destruct (jwt_sign _ _ _ _); reflexivity.
Qed.

Lemma find_email_or_username_none (e u : string) (us : list User.t) :
  (forall d, In d us -> User.email d <> e /\ User.username d <> u) ->
  find (UserModel.email_or_username e u) us = None.
Proof.
  intros H. apply find_none_of. intros d Hd.
  destruct (H d Hd). apply email_or_username_false; assumption.
Qed.

(** C6: a signup request whose email or username is that of a stored
    User writes nothing, and - its four fields being present, so that the
    field check lets it through - is answered 409 Conflict; on any store
    the 409 is decided by the one query [findOne] with the filter
    [email OR username]. *)
Theorem signupUser_duplicate_conflict
        (env : Env) (req : Request SignupBody.t) (db : DB) (d : User.t) :
  In d (users db) ->
  SignupBody.email (body req) = Some (User.email d) \/
  SignupBody.username (body req) = Some (User.username d) ->
  fst (signupUser APPLICATION_SECRET env req db) = db
  /\ (signup_fields_missing (body req) = false ->
      signupUser APPLICATION_SECRET env req db =
        (db, Next (ApiError "Account with same email or username already exists" 409))
      /\ status (respond (snd (signupUser APPLICATION_SECRET env req db))) = 409)
  /\ (forall db0,
        signup_fields_missing (body req) = false ->
        snd (signupUser APPLICATION_SECRET env req db0) =
          Next (ApiError "Account with same email or username already exists" 409)
        <->
        find (UserModel.email_or_username (str (SignupBody.email (body req)))
                (str (SignupBody.username (body req)))) (users db0) <> None).
Proof.
  intros Hin Hsame.
  assert (Hq : exists d',
             find (UserModel.email_or_username
                     (str (SignupBody.email (body req)))
                     (str (SignupBody.username (body req)))) (users db)
             = Some d').
  { apply find_some_of with (x := d); [exact Hin|].
    apply email_or_username_true.
    destruct Hsame as [->| ->]; cbn [str]; auto. }
  destruct Hq as [d' Hq].
  split; [|split].
  - destruct (signup_fields_missing (body req)) eqn:Hfields.
    + rewrite (signupUser_missing env req db Hfields). reflexivity.
    + rewrite (signupUser_existing env req db d' Hfields Hq). reflexivity.
  - intros Hfields.
    rewrite (signupUser_existing env req db d' Hfields Hq). split; reflexivity.
  - intros db0 Hfields. split.
    + intros Hout.
      destruct (find _ (users db0)) eqn:Hf; [discriminate|].
      unfold signupUser in Hout. revert Hout. run_handler.
      fold (signup_fields_missing (body req)). rewrite Hfields, Hf.
      cbn [users User._id].
      destruct (existsb _ _); cbn; discriminate.
    + intros Hsome.
      destruct (find _ (users db0)) as [d0|] eqn:Hf; [|contradiction].
      rewrite (signupUser_existing env req db0 d0 Hfields Hf). reflexivity.
Qed.

(** C9: in [signupUser] the document is saved before the token is made.
    On a signup that reaches the save and whose save succeeds, the token
    step throws: the handler hands an error to [next], the client gets a
    failure, and yet the account is in the store; the same signup sent
    again is answered 409. *)
Theorem signupUser_persists_before_token
        (env env' : Env) (req : Request SignupBody.t) (db : DB) :
  signup_fields_missing (body req) = false ->
  (forall d, In d (users db) ->
     User.email d <> str (SignupBody.email (body req)) /\
     User.username d <> str (SignupBody.username (body req))) ->
  (forall d, In d (users db) -> User._id d <> objectId env) ->
  let db1 := mkDB (users db ++ [signup_document env (body req)]) (posts db) in
  signupUser APPLICATION_SECRET env req db =
    (db1, Next (ReferenceError "loggedInUser"))
  /\ success (respond (Next (ReferenceError "loggedInUser"))) = false
  /\ In (signup_document env (body req)) (users db1)
  /\ signupUser APPLICATION_SECRET env' req db1 =
       (db1, Next (ApiError "Account with same email or username already exists" 409)).
Proof.
  intros Hfields Hnew Hfresh db1.
  split; [|split; [reflexivity|split]].
  - apply signupUser_new; [exact Hfields| |].
    + apply find_email_or_username_none. exact Hnew.
    + apply existsb_false_of. intros d Hd. apply String.eqb_neq. auto.
  - apply in_or_app. right. left. reflexivity.
  - destruct (find_app_new
                (UserModel.email_or_username
                   (str (SignupBody.email (body req)))
                   (str (SignupBody.username (body req))))
                (users db) (signup_document env (body req))) as [d' Hd'].
    { apply email_or_username_true. left. reflexivity. }
    apply (signupUser_existing env' req db1 d' Hfields Hd').
Qed.


End AuthFacts.

(** ** The post controllers *)

Section PostFacts.

Context {mongoose : Mongoose}.

Lemma createPost_missing (env : Env) (req : Request CreateBody.t) (db : DB) :
  not_ (CreateBody.title (body req)) = true ->
  createPost env req db = (db, Next (ApiError "Required fields are missing!" 400)).
Proof.
  unfold createPost. intros H. run_handler. rewrite H. reflexivity.
Qed.

Lemma createPost_created (env : Env) (req : Request CreateBody.t) (db : DB)
      (u : UserObject.t) :
  not_ (CreateBody.title (body req)) = false ->
  user req = Some u ->
  existsb (fun x => Post._id x =? objectId env) (posts db) = false ->
  let p := Post.make (objectId env) (str (CreateBody.title (body req)))
             (UserObject._id u) in
  createPost env req db =
    (mkDB (users db) (posts db ++ [p]),
     Responded (json 201 "Post created successfully!" (DataPost p) true)).
Proof.
  unfold createPost. intros H Hu Hfresh. run_handler.
  rewrite H, Hu. cbn [posts Post._id]. rewrite Hfresh. reflexivity.
Qed.

Lemma updatePost_invalid (env : Env) (req : Request UpdateBody.t) (db : DB) :
  not_ (UpdateBody.title (body req)) || not_ (UpdateBody.postId (body req))
  || negb (isValidObjectId (str (UpdateBody.postId (body req)))) = true ->
  updatePost env req db = (db, Next (ApiError "Required fields are missing" 400)).
Proof.
  unfold updatePost. intros H. run_handler. rewrite H. reflexivity.
Qed.

Lemma updatePost_not_found (env : Env) (req : Request UpdateBody.t) (db : DB)
      (u : UserObject.t) (id : ObjectId) :
  not_ (UpdateBody.title (body req)) = false ->
  denotes (UpdateBody.postId (body req)) id ->
  user req = Some u ->
  find (PostModel.matches id (UserObject._id u)) (posts db) = None ->
  updatePost env req db =
    (db, Next (ApiError ("Post with id: " ++ str (UpdateBody.postId (body req))
                           ++ " does not exist!") 404)).
Proof.
  unfold updatePost. intros Ht (Hp & Hv & Hc) Hu Hfind. run_handler.
  rewrite Ht, Hp, Hv, Hu, Hc. cbn [orb negb]. rewrite Hfind. reflexivity.
Qed.

Lemma updatePost_found (env : Env) (req : Request UpdateBody.t) (db : DB)
      (u : UserObject.t) (id : ObjectId) (p : Post.t) :
  not_ (UpdateBody.title (body req)) = false ->
  denotes (UpdateBody.postId (body req)) id ->
  user req = Some u ->
  find (PostModel.matches id (UserObject._id u)) (posts db) = Some p ->
  let p' := PostModel.set_title (str (UpdateBody.title (body req))) p in
  updatePost env req db =
    (mkDB (users db)
       (updateOne (Post._id p)
          (PostModel.set_title (str (UpdateBody.title (body req)))) (posts db)),
     Responded (json 200 "Post updated successfully!" (DataPost p') true)).
Proof.
  unfold updatePost. intros Ht (Hp & Hv & Hc) Hu Hfind. run_handler.
  rewrite Ht, Hp, Hv, Hu, Hc. cbn [orb negb]. rewrite Hfind. reflexivity.
Qed.

Lemma deletePost_invalid (env : Env) (req : Request DeleteBody.t) (db : DB) :
  not_ (DeleteBody.postId (body req))
  || negb (isValidObjectId (str (DeleteBody.postId (body req)))) = true ->
  deletePost env req db = (db, Next (ApiError "Required fields are missing" 400)).
Proof.
  unfold deletePost. intros H. run_handler. rewrite H. reflexivity.
Qed.

Lemma deletePost_not_found (env : Env) (req : Request DeleteBody.t) (db : DB)
      (u : UserObject.t) (id : ObjectId) :
  denotes (DeleteBody.postId (body req)) id ->
  user req = Some u ->
  find (PostModel.matches id (UserObject._id u)) (posts db) = None ->
  deletePost env req db =
    (db, Next (ApiError ("Post with id: " ++ str (DeleteBody.postId (body req))
                           ++ " does not exist!") 404)).
Proof.
  unfold deletePost. intros (Hp & Hv & Hc) Hu Hfind. run_handler.
  rewrite Hp, Hv, Hu, Hc. cbn [orb negb]. rewrite Hfind. reflexivity.
Qed.

Lemma deletePost_found (env : Env) (req : Request DeleteBody.t) (db : DB)
      (u : UserObject.t) (id : ObjectId) (p : Post.t) :
  denotes (DeleteBody.postId (body req)) id ->
  user req = Some u ->
  find (PostModel.matches id (UserObject._id u)) (posts db) = Some p ->
  deletePost env req db =
    (mkDB (users db) (deleteOne (Post._id p) (posts db)),
     Responded (json 200 "Post deleted successfully!" DataNone true)).
Proof.
  unfold deletePost. intros (Hp & Hv & Hc) Hu Hfind. run_handler.
  rewrite Hp, Hv, Hu, Hc. cbn [orb negb]. rewrite Hfind. reflexivity.
Qed.

(** Within a collection a document is determined by its [_id]. *)
Lemma unique_ids_inj (ps : list Post.t) (p q : Post.t) :
  unique_ids ps -> In p ps -> In q ps -> Post._id p = Post._id q -> p = q.
Proof.
  unfold unique_ids. induction ps as [|a ps IH]; [contradiction|].
  cbn [map]. intros Hnd Hp Hq Hid.
  apply NoDup_cons_iff in Hnd. destruct Hnd as [Hnotin Hnd].
  destruct Hp as [->|Hp], Hq as [->|Hq]; auto.
  - exfalso. apply Hnotin. rewrite Hid. apply in_map. exact Hq.
  - exfalso. apply Hnotin. rewrite <- Hid. apply in_map. exact Hp.
Qed.

(** The query that joins [_id] and [createdBy] finds nothing for a
    stored post when asked on behalf of somebody else. *)
Lemma find_matches_other_owner (ps : list Post.t) (p : Post.t) (owner : ObjectId) :
  unique_ids ps -> In p ps -> Post.createdBy p <> owner ->
  find (PostModel.matches (Post._id p) owner) ps = None.
Proof.
  intros Hnd Hin Hother. apply find_none_of. intros q Hq.
  unfold PostModel.matches.
  destruct (String.eqb_spec (Post._id q) (Post._id p)) as [Hid|_]; [|reflexivity].
  rewrite (unique_ids_inj ps q p Hnd Hq Hin Hid).
  apply String.eqb_neq in Hother. rewrite Hother. reflexivity.
Qed.

Lemma find_matches_absent (ps : list Post.t) (id owner : ObjectId) :
  (forall q, In q ps -> Post._id q <> id) ->
  find (PostModel.matches id owner) ps = None.
Proof.
  intros Habs. apply find_none_of. intros q Hq. unfold PostModel.matches.
  apply Habs in Hq. apply String.eqb_neq in Hq. rewrite Hq. reflexivity.
Qed.

(** C7: an authenticated create request with [title] absent or empty is
    answered 400; otherwise (the generated [_id] being new) a Post with
    [createdBy] the identity's [_id] is inserted and returned, as the
    plain object of the document, with 201. *)
Theorem createPost_responses
        (env : Env) (req : Request CreateBody.t) (db : DB) (u : UserObject.t) :
  user req = Some u ->
  (forall q, In q (posts db) -> Post._id q <> objectId env) ->
  let r := createPost env req db in
  (not_ (CreateBody.title (body req)) = true ->
   r = (db, Next (ApiError "Required fields are missing!" 400))
   /\ status (respond (snd r)) = 400)
  /\ (not_ (CreateBody.title (body req)) = false ->
      exists p,
        r = (mkDB (users db) (posts db ++ [p]),
             Responded (json 201 "Post created successfully!"
                          (DataPost (PostModel.toObject p)) true))
        /\ Post.createdBy p = UserObject._id u
        /\ Post.title p = str (CreateBody.title (body req))
        /\ Post._id p = objectId env
        /\ status (respond (snd r)) = 201).
Proof.
  intros Hu Hfresh r. subst r. split.
  - intros Ht. rewrite (createPost_missing env req db Ht). split; reflexivity.
  - intros Ht. eexists.
    rewrite (createPost_created env req db u Ht Hu).
    + repeat split.
    + apply existsb_false_of. intros q Hq. apply String.eqb_neq. auto.
Qed.

(** C2: a post created by A, asked for by another authenticated user B
    under the post's own id. The one query that joins [_id] and
    [createdBy] returns nothing, so that [deletePost], and [updatePost]
    once a title lets it past the field check, hand [next] the 404 error
    and the client gets status 404. Whatever the title, the store is
    unchanged, the status is not 403, and what the handlers answer is
    what they answer on a store where no post has that id. *)
Theorem non_owner_gets_not_found
        (env : Env) (db : DB) (p : Post.t) (b : UserObject.t)
        (upd : Request UpdateBody.t) (del : Request DeleteBody.t) :
  unique_ids (posts db) ->
  In p (posts db) ->
  Post.createdBy p <> UserObject._id b ->
  user upd = Some b -> user del = Some b ->
  denotes (UpdateBody.postId (body upd)) (Post._id p) ->
  denotes (DeleteBody.postId (body del)) (Post._id p) ->
  find (PostModel.matches (Post._id p) (UserObject._id b)) (posts db) = None
  /\ (not_ (UpdateBody.title (body upd)) = false ->
      updatePost env upd db =
        (db, Next (ApiError ("Post with id: " ++ str (UpdateBody.postId (body upd))
                               ++ " does not exist!") 404))
      /\ status (respond (snd (updatePost env upd db))) = 404)
  /\ deletePost env del db =
       (db, Next (ApiError ("Post with id: " ++ str (DeleteBody.postId (body del))
                              ++ " does not exist!") 404))
  /\ status (respond (snd (deletePost env del db))) = 404
  /\ fst (updatePost env upd db) = db
  /\ status (respond (snd (updatePost env upd db))) <> 403
  /\ (forall db0,
        (forall q, In q (posts db0) -> Post._id q <> Post._id p) ->
        snd (updatePost env upd db0) = snd (updatePost env upd db)
        /\ snd (deletePost env del db0) = snd (deletePost env del db)).
Proof.
  intros Hnd Hin Hother Hu Hd Hupd Hdel.
  pose proof (find_matches_other_owner (posts db) p (UserObject._id b)
                Hnd Hin Hother) as Hfind.
  rewrite (deletePost_not_found env del db b (Post._id p) Hdel Hd Hfind).
  destruct (not_ (UpdateBody.title (body upd))) eqn:Ht.
  - assert (Hbad : forall db1,
               updatePost env upd db1
               = (db1, Next (ApiError "Required fields are missing" 400))).
    { intros db1. apply updatePost_invalid. rewrite Ht. reflexivity. }
    rewrite !Hbad.
    repeat split; try assumption; try discriminate.
    + rewrite Hbad. reflexivity.
    + rewrite (deletePost_not_found env del db0 b (Post._id p) Hdel Hd);
        [reflexivity|].
      apply find_matches_absent. assumption.
  - rewrite (updatePost_not_found env upd db b (Post._id p) Ht Hupd Hu Hfind).
    repeat split; try assumption; try discriminate.
    + rewrite (updatePost_not_found env upd db0 b (Post._id p) Ht Hupd Hu);
        [reflexivity|].
      apply find_matches_absent. assumption.
    + rewrite (deletePost_not_found env del db0 b (Post._id p) Hdel Hd);
        [reflexivity|].
      apply find_matches_absent. assumption.
Qed.

End PostFacts.

(** ** What an update, and any other request, leaves alone *)

Lemma existsb_false_inv {A} (f : A -> bool) (l : list A) :
  existsb f l = false -> forall x, In x l -> f x = false.
Proof.
  induction l as [|a l IH]; [contradiction|].
  cbn. intros H x [<-|Hx]; apply orb_false_iff in H; destruct H; auto.
Qed.

Lemma in_updateOne (id : ObjectId) (f : Post.t -> Post.t) (ps : list Post.t)
      (p' : Post.t) :
  In p' (updateOne id f ps) -> exists q, In q ps /\ (p' = q \/ p' = f q).
Proof.
  induction ps as [|a ps IH]; [contradiction|].
  cbn. destruct (Post._id a =? id).
  - intros [<-|Hin]; eauto.
  - intros [<-|Hin]; [eauto|].
    destruct (IH Hin) as (q & Hq & Hor). eauto.
Qed.

Lemma in_deleteOne (id : ObjectId) (ps : list Post.t) (p' : Post.t) :
  In p' (deleteOne id ps) -> In p' ps.
Proof.
  induction ps as [|a ps IH]; [contradiction|].
  cbn. destruct (Post._id a =? id); [auto|].
  intros [<-|Hin]; auto.
Qed.

Lemma updateOne_pointwise (id : ObjectId) (f : Post.t -> Post.t)
      (ps : list Post.t) :
  Forall2 (fun q q' => q' = q \/ (Post._id q = id /\ q' = f q))
    ps (updateOne id f ps).
Proof.
  induction ps as [|a ps IH]; [constructor|].
  cbn. destruct (String.eqb_spec (Post._id a) id) as [Hid|_].
  - constructor; [auto|].
    clear. induction ps; constructor; auto.
  - constructor; auto.
Qed.

Lemma map_id_updateOne (id : ObjectId) (t : string) (ps : list Post.t) :
  map Post._id (updateOne id (PostModel.set_title t) ps) = map Post._id ps.
Proof.
  induction ps as [|a ps IH]; [reflexivity|].
  cbn. destruct (Post._id a =? id); cbn; [reflexivity|].
  rewrite IH. reflexivity.
Qed.

Lemma unique_ids_deleteOne (id : ObjectId) (ps : list Post.t) :
  unique_ids ps -> unique_ids (deleteOne id ps).
Proof.
  unfold unique_ids. induction ps as [|a ps IH]; [auto|].
  cbn. intros Hnd. apply NoDup_cons_iff in Hnd. destruct Hnd as [Hnotin Hnd].
  destruct (Post._id a =? id); [exact Hnd|].
  cbn. constructor; [|auto].
  intros Hin. apply Hnotin.
  apply in_map_iff in Hin. destruct Hin as (q & Hq & Hin).
  apply in_map_iff. exists q. split; [exact Hq|].
  apply in_deleteOne with (id := id). exact Hin.
Qed.

Lemma unique_ids_insert (ps : list Post.t) (d : Post.t) :
  unique_ids ps -> (forall q, In q ps -> Post._id q <> Post._id d) ->
  unique_ids (ps ++ [d]).
Proof.
  unfold unique_ids. intros Hnd Hfresh. rewrite map_app. cbn.
  apply NoDup_app; [exact Hnd|repeat constructor; auto|].
  intros i Hi [<-|[]].
  apply in_map_iff in Hi. destruct Hi as (q & Hq & Hin).
  exact (Hfresh q Hin Hq).
Qed.

Lemma keeps_same (ps : list Post.t) :
  unique_ids ps -> keeps_createdBy ps ps.
Proof.
  intros Hnd p p' Hp Hp' Hid.
  rewrite (unique_ids_inj ps p' p Hnd Hp' Hp Hid). reflexivity.
Qed.

Lemma keeps_insert (ps : list Post.t) (d : Post.t) :
  unique_ids ps -> (forall q, In q ps -> Post._id q <> Post._id d) ->
  keeps_createdBy ps (ps ++ [d]).
Proof.
  intros Hnd Hfresh p p' Hp Hp' Hid.
  apply in_app_or in Hp'. destruct Hp' as [Hp'|[<-|[]]].
  - rewrite (unique_ids_inj ps p' p Hnd Hp' Hp Hid). reflexivity.
  - exfalso. apply (Hfresh p Hp). symmetry. exact Hid.
Qed.

Lemma keeps_updateOne (id : ObjectId) (t : string) (ps : list Post.t) :
  unique_ids ps ->
  keeps_createdBy ps (updateOne id (PostModel.set_title t) ps).
Proof.
  intros Hnd p p' Hp Hp' Hid.
  apply in_updateOne in Hp'. destruct Hp' as (q & Hq & [->| ->]).
  - rewrite (unique_ids_inj ps q p Hnd Hq Hp Hid). reflexivity.
  - cbn in Hid |- *.
    rewrite (unique_ids_inj ps q p Hnd Hq Hp Hid). reflexivity.
Qed.

Lemma keeps_deleteOne (id : ObjectId) (ps : list Post.t) :
  unique_ids ps -> keeps_createdBy ps (deleteOne id ps).
Proof.
  intros Hnd p p' Hp Hp' Hid. apply in_deleteOne in Hp'.
  rewrite (unique_ids_inj ps p' p Hnd Hp' Hp Hid). reflexivity.
Qed.

Section FrameFacts.

Context {bcrypt : Bcrypt} {jwt : JsonWebToken} {mongoose : Mongoose}.
Variable APPLICATION_SECRET : string.

Lemma signupUser_posts (env : Env) (req : Request SignupBody.t) (db : DB) :
  posts (fst (signupUser APPLICATION_SECRET env req db)) = posts db.
Proof.
  unfold signupUser. run_handler.
  destruct (not_ _ || not_ _ || not_ _ || not_ _); [reflexivity|].
  destruct (find _ _); [reflexivity|]. cbn [users User._id].
  destruct (existsb _ _); reflexivity.
Qed.

Lemma createPost_posts (env : Env) (req : Request CreateBody.t) (db : DB) :
  posts (fst (createPost env req db)) = posts db
  \/ exists d, posts (fst (createPost env req db)) = posts db ++ [d]
               /\ forall q, In q (posts db) -> Post._id q <> Post._id d.
Proof.
  unfold createPost. run_handler.
  destruct (not_ _); [left; reflexivity|].
  destruct (user req); [|left; reflexivity]. cbn [posts Post._id].
  destruct (existsb _ _) eqn:Hfresh; [left; reflexivity|].
  right. eexists. split; [reflexivity|].
  intros q Hq. apply String.eqb_neq.
  exact (existsb_false_inv _ _ Hfresh q Hq).
Qed.

Lemma updatePost_posts (env : Env) (req : Request UpdateBody.t) (db : DB) :
  posts (fst (updatePost env req db)) = posts db
  \/ exists id t,
       posts (fst (updatePost env req db))
       = updateOne id (PostModel.set_title t) (posts db).
Proof.
  unfold updatePost. run_handler.
  destruct (not_ _ || not_ _ || negb _); [left; reflexivity|].
  destruct (user req); [|left; reflexivity].
  destruct (castObjectId _); [|left; reflexivity].
  cbn [fst snd]. destruct (find _ _); [|left; reflexivity].
  right. eexists. eexists. reflexivity.
Qed.

Lemma deletePost_posts (env : Env) (req : Request DeleteBody.t) (db : DB) :
  posts (fst (deletePost env req db)) = posts db
  \/ exists id, posts (fst (deletePost env req db)) = deleteOne id (posts db).
Proof.
  unfold deletePost. run_handler.
  destruct (not_ _ || negb _); [left; reflexivity|].
  destruct (user req); [|left; reflexivity].
  destruct (castObjectId _); [|left; reflexivity].
  cbn [fst snd]. destruct (find _ _); [|left; reflexivity].
  right. eexists. reflexivity.
Qed.

(** No request breaks the uniqueness of [_id], and none gives a stored
    post another [createdBy]. *)
Lemma run_keeps (env : Env) (op : Operation) (db : DB) :
  unique_ids (posts db) ->
  unique_ids (posts (fst (run APPLICATION_SECRET env op db)))
  /\ keeps_createdBy (posts db) (posts (fst (run APPLICATION_SECRET env op db))).
Proof.
  intros Hnd. destruct op as [req|req|req|req|req|req|req]; cbn [run].
  - rewrite signupUser_posts. split; [exact Hnd|apply keeps_same; exact Hnd].
  - rewrite loginUser_reads_only. split; [exact Hnd|apply keeps_same; exact Hnd].
  - split; [exact Hnd|apply keeps_same; exact Hnd].
  - destruct (createPost_posts env req db) as [->|(d & -> & Hfresh)].
    + split; [exact Hnd|apply keeps_same; exact Hnd].
    + split; [apply unique_ids_insert|apply keeps_insert]; assumption.
  - split; [exact Hnd|apply keeps_same; exact Hnd].
  - destruct (updatePost_posts env req db) as [->|(id & t & ->)].
    + split; [exact Hnd|apply keeps_same; exact Hnd].
    + split; [|apply keeps_updateOne; exact Hnd].
      unfold unique_ids. rewrite map_id_updateOne. exact Hnd.
  - destruct (deletePost_posts env req db) as [->|(id & ->)].
    + split; [exact Hnd|apply keeps_same; exact Hnd].
    + split; [apply unique_ids_deleteOne|apply keeps_deleteOne]; exact Hnd.
Qed.

Lemma updatePost_responded (env : Env) (req : Request UpdateBody.t)
      (db db' : DB) (res : Response) :
  updatePost env req db = (db', Responded res) ->
  exists p,
    In p (posts db)
    /\ db' = mkDB (users db)
               (updateOne (Post._id p)
                  (PostModel.set_title (str (UpdateBody.title (body req))))
                  (posts db))
    /\ res = json 200 "Post updated successfully!"
               (DataPost (PostModel.set_title
                            (str (UpdateBody.title (body req))) p)) true.
Proof.
  unfold updatePost. run_handler.
  destruct (not_ _ || not_ _ || negb _); [discriminate|].
  destruct (user req); [|discriminate].
  destruct (castObjectId _); [|discriminate].
  cbn [fst snd]. destruct (find _ _) as [p|] eqn:Hfind; [|discriminate].
  intros [= <- <-]. exists p. repeat split.
  apply find_some in Hfind. tauto.
Qed.

(** C8: a successful [updatePost] changes the title of one post and
    nothing else: the users are as before, and the posts correspond one
    to one, each with the [_id] and [createdBy] it had, a post being
    either untouched or the old post with the new title; the post sent
    back is the old one with the new title. And no request of any kind
    gives a stored post another [createdBy]. *)
Theorem updatePost_changes_title_only
        (env : Env) (req : Request UpdateBody.t) (db db' : DB) (res : Response) :
  updatePost env req db = (db', Responded res) ->
  users db' = users db
  /\ Forall2 (fun q q' =>
                Post._id q' = Post._id q
                /\ Post.createdBy q' = Post.createdBy q
                /\ (q' = q \/
                    q' = PostModel.set_title (str (UpdateBody.title (body req))) q))
       (posts db) (posts db')
  /\ (exists p,
        In p (posts db)
        /\ data res = DataPost (Post.make (Post._id p)
                                  (str (UpdateBody.title (body req)))
                                  (Post.createdBy p))
        /\ Forall2 (fun q q' => Post._id q <> Post._id p -> q' = q)
             (posts db) (posts db'))
  /\ (forall env0 op db0,
        unique_ids (posts db0) ->
        keeps_createdBy (posts db0)
          (posts (fst (run APPLICATION_SECRET env0 op db0)))).
Proof.
  intros Hrun.
  destruct (updatePost_responded env req db db' res Hrun) as (p & Hin & -> & ->).
  cbn [users posts data json].
  pose proof (updateOne_pointwise (Post._id p)
                (PostModel.set_title (str (UpdateBody.title (body req))))
                (posts db)) as Hpt.
  split; [reflexivity|split; [|split]].
  - eapply Forall2_impl; [|exact Hpt].
    intros q q' [->|[_ ->]]; cbn; auto.
  - exists p. split; [exact Hin|split; [reflexivity|]].
    eapply Forall2_impl; [|exact Hpt].
    intros q q' [->|[Hid _]] Hne; [reflexivity|contradiction].
  - intros env0 op db0 Hnd. apply run_keeps. exact Hnd.
Qed.

End FrameFacts.

(** ** The authentication middleware *)

Section MiddlewareFacts.

Context {bcrypt : Bcrypt} {jwt : JsonWebToken}.
Variable APPLICATION_SECRET : string.

Lemma auth_proceeds_inv {B} (env : Env) (req req' : Request B) :
  auth APPLICATION_SECRET env req = Proceed req' ->
  exists p u,
    not_ (authorization req) = false
    /\ jwt_verify (str (authorization req)) APPLICATION_SECRET (now env) = inr p
    /\ payload_user p = Some u
    /\ req' = mkRequest (authorization req) (body req) (Some u).
Proof.
  unfold auth, auth_try.
  destruct (not_ (authorization req)); [discriminate|].
  destruct (jwt_verify _ _ _) as [e|p] eqn:Hv; [discriminate|].
  destruct (payload_user p) as [u|] eqn:Hu; [|discriminate].
  intros [= <-]. exists p, u. repeat split; auto.
Qed.

Lemma bearer_not_jws (tok : string) : jws_charset ("Bearer " ++ tok) = false.
Proof.
  cbn [append jws_charset].
  change (jws_char " ") with false.
  rewrite !andb_false_r. reflexivity.
Qed.

Lemma loginUser_responded (env : Env) (req : Request LoginBody.t)
      (db db' : DB) (res : Response) :
  loginUser APPLICATION_SECRET env req db = (db', Responded res) ->
  exists d tok,
    In d (users db)
    /\ jwt_sign (mkPayload (Some (UserModel.delete_password (UserModel.toObject d)))
                   None None)
         APPLICATION_SECRET expiresIn_1d (now env) = inr tok
    /\ data res = DataUser (UserModel.delete_password (UserModel.toObject d)) tok.
Proof.
  unfold loginUser. run_handler.
  destruct (not_ _ || not_ _); [discriminate|].
  destruct (find _ _) as [d|] eqn:Hfind; [|discriminate].
  destruct (bcrypt_compare _ _); cbn [negb]; [|discriminate].
  destruct (jwt_sign _ _ _ _) as [e|tok] eqn:Hsign; [discriminate|].
  intros [= <- <-]. exists d, tok. repeat split; auto.
  apply find_some in Hfind. tauto.
Qed.

(** C3: the middleware answers every failure - no authorization header,
    an error thrown by [jwt.verify] whatever it is, a payload without
    [user] - with one and the same response, 401 "Access Denied" with
    the [authToken] cookie cleared (the cause goes to the log only); when
    the token verifies it sets [req.user] to the [user] of the payload
    and calls the next handler. *)
Theorem auth_denies_uniformly_or_proceeds {B} (env : Env) (req : Request B) :
  (status accessDenied = 401
   /\ message accessDenied = "Access Denied"
   /\ success accessDenied = false
   /\ data accessDenied = DataNone
   /\ clearedCookies accessDenied = ["authToken"])
  /\ (not_ (authorization req) = true ->
      auth APPLICATION_SECRET env req
      = Rejected accessDenied (Error "No Auth Token!"))
  /\ (forall e,
        not_ (authorization req) = false ->
        jwt_verify (str (authorization req)) APPLICATION_SECRET (now env) = inl e ->
        auth APPLICATION_SECRET env req = Rejected accessDenied e)
  /\ (forall p,
        not_ (authorization req) = false ->
        jwt_verify (str (authorization req)) APPLICATION_SECRET (now env) = inr p ->
        payload_user p = None ->
        auth APPLICATION_SECRET env req
        = Rejected accessDenied (Error "User object missing!"))
  /\ (forall p u,
        not_ (authorization req) = false ->
        jwt_verify (str (authorization req)) APPLICATION_SECRET (now env) = inr p ->
        payload_user p = Some u ->
        auth APPLICATION_SECRET env req
        = Proceed (mkRequest (authorization req) (body req) (Some u)))
  /\ (forall res logged,
        auth APPLICATION_SECRET env req = Rejected res logged ->
        res = accessDenied).
Proof.
  unfold auth, auth_try. repeat split.
  - intros ->. reflexivity.
  - intros e -> ->. reflexivity.
  - intros p -> -> ->. reflexivity.
  - intros p u -> -> ->. reflexivity.
  - intros res logged.
    destruct (if not_ (authorization req) then _ else _);
      [intros [= <- _]; reflexivity|discriminate].
Qed.

(** C10: the middleware passes the authorization header to [jwt.verify]
    as it is. A header made of "Bearer " and a token - any string, a
    valid token included - does not verify and is answered 401; the same
    token alone in the header authenticates; and whenever the middleware
    lets a request through, the header itself verified. *)
Theorem bearer_prefix_is_rejected {B}
        (env : Env) (req : Request B) (tok : string) :
  JwtContract jwt ->
  authorization req = Some ("Bearer " ++ tok)%string ->
  (exists e, auth APPLICATION_SECRET env req = Rejected accessDenied e)
  /\ status accessDenied = 401
  /\ (forall u issued,
        jwt_sign (mkPayload (Some u) None None) APPLICATION_SECRET
          expiresIn_1d issued = inr tok ->
        (now env < issued + 86400)%Z ->
        auth APPLICATION_SECRET env (mkRequest (Some tok) (body req) (user req))
        = Proceed (mkRequest (Some tok) (body req) (Some u)))
  /\ (forall (r r' : Request B),
        auth APPLICATION_SECRET env r = Proceed r' ->
        exists p, jwt_verify (str (authorization r)) APPLICATION_SECRET (now env)
                  = inr p
                  /\ user r' = payload_user p).
Proof.
  intros HJ Hauth. split; [|split; [reflexivity|split]].
  - assert (Hn : not_ (Some ("Bearer " ++ tok)%string) = false) by reflexivity.
    unfold auth, auth_try. rewrite Hauth, Hn. cbn [str].
    destruct (jwt_verify _ _ _) as [e|p] eqn:Hverify; [eauto|].
    apply (verify_charset jwt HJ) in Hverify.
    rewrite bearer_not_jws in Hverify. discriminate.
  - intros u issued Hsign Hlt.
    pose proof (verify_signed jwt HJ (Some u) APPLICATION_SECRET expiresIn_1d
                  issued tok (now env) Hsign) as Hverify.
    pose proof (sign_nonempty jwt HJ _ _ _ _ _ Hsign) as Hne.
    apply String.eqb_neq in Hne. unfold expiresIn_1d in Hverify.
    apply Z.ltb_lt in Hlt. rewrite Hlt in Hverify.
    unfold auth, auth_try. cbn [authorization not_ str body].
    rewrite Hne, Hverify. reflexivity.
  - intros r r' Hr.
    destruct (auth_proceeds_inv env r r' Hr) as (p & u & _ & Hv & Hu & ->).
    exists p. split; [exact Hv|]. cbn [user]. auto.
Qed.

End MiddlewareFacts.

(** ** The scenario, run on the sample libraries *)

#[local] Existing Instance Sample.bcrypt.
#[local] Existing Instance Sample.jwt.
#[local] Existing Instance Sample.mongoose.

Lemma signupUser_never_responds
      (b : Bcrypt) (j : JsonWebToken) (secret : string)
      (env : Env) (req : Request SignupBody.t) (db : DB) (res : Response) :
  snd (@signupUser b j secret env req db) <> Responded res.
Proof.
  unfold signupUser. run_handler.
  destruct (not_ _ || not_ _ || not_ _ || not_ _); [discriminate|].
  destruct (find _ _); [discriminate|]. cbn [users User._id].
  destruct (existsb _ _); discriminate.
Qed.

(** C1 (the code departs from it): the signup of John Doe on an empty
    store, all four fields present. The account is saved with the hashed
    password, then the token step throws ReferenceError and the handler
    calls [next(error)]: no 201, no user object, no token. On no input
    at all does [signupUser] send a response of its own. *)
Theorem signupUser_john_doe_throws :
  signupUser Scenario.secret Scenario.env0 Scenario.john_signup Scenario.empty
  = (mkDB [Scenario.john] [], Next (ReferenceError "loggedInUser"))
  /\ status (respond (Next (ReferenceError "loggedInUser"))) <> 201
  /\ (forall (b : Bcrypt) (j : JsonWebToken) secret env req db res,
        snd (@signupUser b j secret env req db) <> Responded res).
Proof.
  split; [reflexivity|split; [discriminate|]].
  intros. apply signupUser_never_responds.
Qed.

Lemma scenario_posts_unique : unique_ids (posts Scenario.db_posts).
Proof.
  unfold unique_ids. cbn. constructor; [intros []|constructor].
Defined.

Lemma non_owner_witness :
  In Scenario.hello (posts Scenario.db_posts)
  /\ Post.createdBy Scenario.hello <> UserObject._id Scenario.jane_object
  /\ updatePost Scenario.env2 Scenario.jane_update Scenario.db_posts
     = (Scenario.db_posts,
        Next (ApiError "Post with id: 507f1f77bcf86cd799439013 does not exist!" 404))
  /\ deletePost Scenario.env2 Scenario.jane_delete Scenario.db_posts
     = (Scenario.db_posts,
        Next (ApiError "Post with id: 507f1f77bcf86cd799439013 does not exist!" 404)).
Proof.
  assert (Hin : In Scenario.hello (posts Scenario.db_posts))
    by (left; reflexivity).
  assert (Hother : Post.createdBy Scenario.hello
                   <> UserObject._id Scenario.jane_object) by discriminate.
  assert (Hu : denotes (UpdateBody.postId (body Scenario.jane_update))
                 (Post._id Scenario.hello)) by (repeat split).
  assert (Hd : denotes (DeleteBody.postId (body Scenario.jane_delete))
                 (Post._id Scenario.hello)) by (repeat split).
  split; [exact Hin|split; [exact Hother|]].
  destruct (non_owner_gets_not_found Scenario.env2 Scenario.db_posts
              Scenario.hello Scenario.jane_object
              Scenario.jane_update Scenario.jane_delete
              scenario_posts_unique Hin Hother eq_refl eq_refl Hu Hd)
    as (_ & Hupd & Hdel & _).
  split; [exact (proj1 (Hupd eq_refl))|exact Hdel].
Defined.

Lemma auth_witness :
  auth Scenario.secret Scenario.env1
    (mkRequest (Some Scenario.john_token) tt None)
  = Proceed (mkRequest (Some Scenario.john_token) tt (Some Scenario.john_object))
  /\ auth Scenario.secret Scenario.env1 (mkRequest None tt None)
     = Rejected accessDenied (Error "No Auth Token!").
Proof.
  split.
  - destruct (auth_denies_uniformly_or_proceeds Scenario.secret Scenario.env1
                (mkRequest (Some Scenario.john_token) tt None))
      as (_ & _ & _ & _ & Hok & _).
    apply (Hok (mkPayload (Some Scenario.john_object) (Some 1000%Z)
                  (Some 87400%Z)) Scenario.john_object);
      vm_compute; reflexivity.
  - destruct (auth_denies_uniformly_or_proceeds Scenario.secret Scenario.env1
                (mkRequest None tt None))
      as (_ & Hnone & _).
    apply Hnone. reflexivity.
Defined.

Lemma bearer_witness :
  authorization (mkRequest (Some ("Bearer " ++ Scenario.john_token)%string) tt None)
  = Some ("Bearer " ++ Scenario.john_token)%string
  /\ (exists e,
        auth Scenario.secret Scenario.env1
          (mkRequest (Some ("Bearer " ++ Scenario.john_token)%string) tt None)
        = Rejected accessDenied e)
  /\ auth Scenario.secret Scenario.env1
       (mkRequest (Some Scenario.john_token) tt None)
     = Proceed (mkRequest (Some Scenario.john_token) tt (Some Scenario.john_object)).
Proof.
  split; [reflexivity|].
  destruct (bearer_prefix_is_rejected Scenario.secret Scenario.env1
              (mkRequest (Some ("Bearer " ++ Scenario.john_token)%string) tt None)
              Scenario.john_token SampleFacts.contract eq_refl)
    as (Hdenied & _ & Hbare & _).
  split; [exact Hdenied|].
  apply (Hbare Scenario.john_object 1000%Z); reflexivity.
Defined.


Lemma conflict_witness :
  signup_fields_missing (body Scenario.john_signup) = false
  /\ In Scenario.john (users Scenario.db_users)
  /\ signupUser Scenario.secret Scenario.env2 Scenario.john_signup
       Scenario.db_users
     = (Scenario.db_users,
        Next (ApiError "Account with same email or username already exists" 409)).
Proof.
  assert (Hin : In Scenario.john (users Scenario.db_users))
    by (left; reflexivity).
  split; [reflexivity|split; [exact Hin|]].
  destruct (signupUser_duplicate_conflict Scenario.secret Scenario.env2
              Scenario.john_signup Scenario.db_users Scenario.john
              Hin (or_introl eq_refl)) as (_ & Hconflict & _).
  exact (proj1 (Hconflict eq_refl)).
Defined.

Lemma persists_witness :
  signup_fields_missing (body Scenario.john_signup) = false
  /\ signupUser Scenario.secret Scenario.env0 Scenario.john_signup Scenario.empty
     = (mkDB [Scenario.john] [], Next (ReferenceError "loggedInUser"))
  /\ signupUser Scenario.secret Scenario.env1 Scenario.john_signup
       (mkDB [Scenario.john] [])
     = (mkDB [Scenario.john] [],
        Next (ApiError "Account with same email or username already exists" 409)).
Proof.
  split; [reflexivity|].
  destruct (signupUser_persists_before_token Scenario.secret Scenario.env0
              Scenario.env1 Scenario.john_signup Scenario.empty eq_refl
              (fun d (H : In d []) => match H with end)
              (fun d (H : In d []) => match H with end))
    as (Hfirst & _ & _ & Hagain).
  split; [exact Hfirst|exact Hagain].
Defined.

Lemma create_witness :
  user Scenario.john_create = Some Scenario.john_object
  /\ (exists p,
        createPost Scenario.env2 Scenario.john_create Scenario.db_users
        = (mkDB (users Scenario.db_users) (posts Scenario.db_users ++ [p]),
           Responded (json 201 "Post created successfully!" (DataPost p) true))
        /\ Post.createdBy p = UserObject._id Scenario.john_object)
  /\ createPost Scenario.env2
       (mkRequest (Some "token") (CreateBody.make (Some EmptyString))
          (Some Scenario.john_object))
       Scenario.db_users
     = (Scenario.db_users, Next (ApiError "Required fields are missing!" 400)).
Proof.
  split; [reflexivity|split].
  - destruct (createPost_responses Scenario.env2 Scenario.john_create
                Scenario.db_users Scenario.john_object eq_refl
                (fun q (H : In q []) => match H with end)) as (_ & Hok).
    destruct (Hok eq_refl) as (p & Hr & Hby & _).
    exists p. split; [exact Hr|exact Hby].
  - destruct (createPost_responses Scenario.env2
                (mkRequest (Some "token") (CreateBody.make (Some EmptyString))
                   (Some Scenario.john_object))
                Scenario.db_users Scenario.john_object eq_refl
                (fun q (H : In q []) => match H with end)) as (Hbad & _).
    apply (Hbad eq_refl).
Defined.

Lemma update_witness :
  updatePost Scenario.env2 Scenario.john_update Scenario.db_posts
  = (mkDB [Scenario.john; Scenario.jane]
       [Post.make "507f1f77bcf86cd799439013" "Hello again" (User._id Scenario.john)],
     Responded (json 200 "Post updated successfully!"
                  (DataPost (Post.make "507f1f77bcf86cd799439013" "Hello again"
                               (User._id Scenario.john))) true))
  /\ Forall2 (fun q q' =>
                Post._id q' = Post._id q
                /\ Post.createdBy q' = Post.createdBy q
                /\ (q' = q \/
                    q' = PostModel.set_title
                           (str (UpdateBody.title (body Scenario.john_update))) q))
       [Scenario.hello]
       [Post.make "507f1f77bcf86cd799439013" "Hello again" (User._id Scenario.john)].
Proof.
  assert (Hrun : updatePost Scenario.env2 Scenario.john_update Scenario.db_posts
                 = (mkDB [Scenario.john; Scenario.jane]
                      [Post.make "507f1f77bcf86cd799439013" "Hello again"
                         (User._id Scenario.john)],
                    Responded (json 200 "Post updated successfully!"
                                 (DataPost (Post.make "507f1f77bcf86cd799439013"
                                              "Hello again"
                                              (User._id Scenario.john))) true)))
    by reflexivity.
  split; [exact Hrun|].
  destruct (updatePost_changes_title_only Scenario.secret Scenario.env2
              Scenario.john_update Scenario.db_posts _ _ Hrun)
    as (_ & Hframe & _).
  exact Hframe.
Defined.

(** * Beyond the claims: the listing, the owner's path, the store *)

(** ** More store lemmas *)

Lemma find_app_found {A} (f : A -> bool) (l l' : list A) (x : A) :
  find f l = Some x -> find f (l ++ l') = Some x.
Proof.
  induction l as [|a l IH]; [discriminate|].
  cbn. destruct (f a); auto.
Qed.

Lemma find_app_fresh {A} (f : A -> bool) (l : list A) (x : A) :
  find f l = None -> f x = true -> find f (l ++ [x]) = Some x.
Proof.
  induction l as [|a l IH]; cbn.
  - intros _ ->. reflexivity.
  - destruct (f a); [discriminate|auto].
Qed.

Lemma NoDup_map_snoc {A B} (f : A -> B) (l : list A) (d : A) :
  NoDup (map f l) -> (forall x, In x l -> f x <> f d) ->
  NoDup (map f (l ++ [d])).
Proof.
  intros Hnd Hfresh. rewrite map_app. cbn.
  apply NoDup_app; [exact Hnd|repeat constructor; auto|].
  intros i Hi [<-|[]].
  apply in_map_iff in Hi. destruct Hi as (q & Hq & Hin).
  exact (Hfresh q Hin Hq).
Qed.

Lemma find_matches_owner (ps : list Post.t) (p : Post.t) :
  unique_ids ps -> In p ps ->
  find (PostModel.matches (Post._id p) (Post.createdBy p)) ps = Some p.
Proof.
  intros Hnd Hin.
  destruct (find_some_of (PostModel.matches (Post._id p) (Post.createdBy p))
              ps p Hin) as [q Hq].
  { unfold PostModel.matches. rewrite !String.eqb_refl. reflexivity. }
  rewrite Hq. f_equal.
  apply find_some in Hq. destruct Hq as [Hinq Hm].
  unfold PostModel.matches in Hm. apply andb_true_iff in Hm.
  destruct Hm as [Hid _]. apply String.eqb_eq in Hid.
  exact (unique_ids_inj ps q p Hnd Hinq Hin Hid).
Qed.

Lemma in_updateOne_target (f : Post.t -> Post.t) (ps : list Post.t) (p : Post.t) :
  unique_ids ps -> In p ps -> In (f p) (updateOne (Post._id p) f ps).
Proof.
  induction ps as [|a ps IH]; [contradiction|].
  intros Hnd Hin. cbn.
  destruct (String.eqb_spec (Post._id a) (Post._id p)) as [Hid|Hne].
  - left. f_equal.
    apply (unique_ids_inj (a :: ps) a p Hnd); [left; reflexivity|exact Hin|exact Hid].
  - right. destruct Hin as [->|Hin]; [contradiction|].
    apply IH; [|exact Hin].
    unfold unique_ids in *. cbn in Hnd. apply NoDup_cons_iff in Hnd. tauto.
Qed.

Lemma in_updateOne_other (id : ObjectId) (f : Post.t -> Post.t)
      (ps : list Post.t) (q : Post.t) :
  In q ps -> Post._id q <> id -> In q (updateOne id f ps).
Proof.
  induction ps as [|a ps IH]; [contradiction|].
  intros Hin Hne. cbn.
  destruct (String.eqb_spec (Post._id a) id) as [Hid|_].
  - destruct Hin as [->|Hin]; [contradiction|]. right. exact Hin.
  - destruct Hin as [->|Hin]; [left; reflexivity|right; auto].
Qed.

Lemma updateOne_set_title_twice (id : ObjectId) (t : string) (ps : list Post.t) :
  updateOne id (PostModel.set_title t) (updateOne id (PostModel.set_title t) ps)
  = updateOne id (PostModel.set_title t) ps.
Proof.
  induction ps as [|a ps IH]; [reflexivity|].
  cbn. destruct (Post._id a =? id) eqn:Hid; cbn; rewrite Hid.
  - reflexivity.
  - rewrite IH. reflexivity.
Qed.

Lemma in_deleteOne_other (id : ObjectId) (ps : list Post.t) (q : Post.t) :
  In q ps -> Post._id q <> id -> In q (deleteOne id ps).
Proof.
  induction ps as [|a ps IH]; [contradiction|].
  intros Hin Hne. cbn.
  destruct (String.eqb_spec (Post._id a) id) as [Hid|_].
  - destruct Hin as [->|Hin]; [contradiction|exact Hin].
  - destruct Hin as [->|Hin]; [left; reflexivity|right; auto].
Qed.

Lemma deleteOne_gone (id : ObjectId) (ps : list Post.t) (q : Post.t) :
  unique_ids ps -> In q (deleteOne id ps) -> Post._id q <> id.
Proof.
  unfold unique_ids. induction ps as [|a ps IH]; [contradiction|].
  cbn. intros Hnd. apply NoDup_cons_iff in Hnd. destruct Hnd as [Hnotin Hnd].
  destruct (String.eqb_spec (Post._id a) id) as [Hid|Hne].
  - intros Hin Hq. apply Hnotin. rewrite Hid, <- Hq. apply in_map. exact Hin.
  - intros [<-|Hin]; [exact Hne|auto].
Qed.

Lemma post_with_id_in (id : ObjectId) (ps : list Post.t) (p : Post.t) :
  unique_ids ps -> In p ps -> Post._id p = id -> post_with_id id ps = Some p.
Proof.
  intros Hnd Hin Hid. unfold post_with_id.
  destruct (find_some_of (fun q => Post._id q =? id) ps p Hin) as [q Hq].
  { apply String.eqb_eq. exact Hid. }
  rewrite Hq. f_equal. apply find_some in Hq. destruct Hq as [Hinq Hm].
  apply String.eqb_eq in Hm.
  apply (unique_ids_inj ps q p Hnd Hinq Hin). congruence.
Qed.

(** ** The listing and the owner's update and delete *)

Section OwnerFacts.

Context {mongoose : Mongoose}.

Lemma createPost_responded (env : Env) (req : Request CreateBody.t)
      (db db' : DB) (res : Response) :
  createPost env req db = (db', Responded res) ->
  exists u,
    user req = Some u
    /\ not_ (CreateBody.title (body req)) = false
    /\ (forall q, In q (posts db) -> Post._id q <> objectId env)
    /\ db' = mkDB (users db)
               (posts db ++ [Post.make (objectId env)
                               (str (CreateBody.title (body req)))
                               (UserObject._id u)])
    /\ res = json 201 "Post created successfully!"
               (DataPost (Post.make (objectId env)
                            (str (CreateBody.title (body req)))
                            (UserObject._id u))) true.
Proof.
  unfold createPost. run_handler.
  destruct (not_ _) eqn:Ht; [discriminate|].
  destruct (user req) as [u|]; [|discriminate]. cbn [posts Post._id].
  destruct (existsb _ _) eqn:Hfresh; [discriminate|].
  intros [= <- <-]. exists u. repeat split.
  intros q Hq. apply String.eqb_neq.
  exact (existsb_false_inv _ _ Hfresh q Hq).
Qed.

(** X1: [fetchAllPosts] needs no identity, writes nothing and answers
    200 with one entry per stored post, in store order, carrying the
    post's [_id] and [title]; [createdBy] is the [_id], [fullName] and
    [username] of the user with that [_id], or null when there is none. *)
Theorem fetchAllPosts_lists (env : Env) (req : Request unit) (db : DB) :
  fetchAllPosts env req db
  = (db, Responded (json 200 "Posts fetched successfully!"
                      (DataPosts (listing db)) true))
  /\ Forall2
       (fun p l =>
          PopulatedPost._id l = Post._id p
          /\ PopulatedPost.title l = Post.title p
          /\ match PopulatedPost.createdBy l with
             | Some a =>
                 Author._id a = Post.createdBy p
                 /\ exists u, In u (users db)
                              /\ User._id u = Post.createdBy p
                              /\ Author.fullName a = User.fullName u
                              /\ Author.username a = User.username u
             | None => forall u, In u (users db) -> User._id u <> Post.createdBy p
             end)
       (posts db) (listing db).
Proof.
  split; [reflexivity|].
  unfold listing. induction (posts db) as [|p ps IH]; [constructor|].
  cbn [map]. constructor; [|exact IH].
  unfold PostModel.populate.
  cbn [PopulatedPost._id PopulatedPost.title PopulatedPost.createdBy].
  split; [reflexivity|split; [reflexivity|]].
  destruct (find _ (users db)) as [u|] eqn:Hfind; cbn [option_map].
  - apply find_some in Hfind. destruct Hfind as [Hin Hid].
    apply String.eqb_eq in Hid. cbn [Author._id]. split; [exact Hid|].
    exists u. repeat split; assumption.
  - intros u Hin. apply String.eqb_neq.
    exact (find_none _ _ Hfind u Hin).
Qed.

(** X2: after a [createPost] answered 201 the listing is the listing of
    before followed by the new post, whose entry carries the generated
    [_id], the title sent and the caller as author. *)
Theorem createPost_then_fetchAllPosts
        (env env' : Env) (req : Request CreateBody.t) (get : Request unit)
        (db db' : DB) (res : Response) :
  createPost env req db = (db', Responded res) ->
  exists p,
    data res = DataPost p
    /\ Post._id p = objectId env
    /\ Post.title p = str (CreateBody.title (body req))
    /\ Some (Post.createdBy p) = option_map UserObject._id (user req)
    /\ fetchAllPosts env' get db'
       = (db', Responded (json 200 "Posts fetched successfully!"
                            (DataPosts (listing db
                                        ++ [PostModel.populate (users db) p]))
                            true)).
Proof.
  intros Hrun.
  destruct (createPost_responded env req db db' res Hrun)
    as (u & Hu & _ & _ & -> & ->).
  eexists. split; [reflexivity|]. rewrite Hu.
  repeat split.
  unfold fetchAllPosts. run_handler. cbn [users posts].
  unfold listing. rewrite map_app. reflexivity.
Qed.

(** X3: the owner's update. On a store with unique [_id], the creator of
    a post, sending a title and the post's id, gets 200 with the post
    under its new title; the store then holds that post under its
    [_id], every other post is still there, and sending the same update
    again changes nothing more. *)
Theorem updatePost_by_owner
        (env env' : Env) (req : Request UpdateBody.t) (db : DB)
        (p : Post.t) (u : UserObject.t) :
  unique_ids (posts db) ->
  In p (posts db) ->
  user req = Some u ->
  UserObject._id u = Post.createdBy p ->
  not_ (UpdateBody.title (body req)) = false ->
  denotes (UpdateBody.postId (body req)) (Post._id p) ->
  let p' := PostModel.set_title (str (UpdateBody.title (body req))) p in
  let db' := mkDB (users db)
               (updateOne (Post._id p)
                  (PostModel.set_title (str (UpdateBody.title (body req))))
                  (posts db)) in
  updatePost env req db
  = (db', Responded (json 200 "Post updated successfully!" (DataPost p') true))
  /\ post_with_id (Post._id p) (posts db') = Some p'
  /\ (forall q, In q (posts db) -> Post._id q <> Post._id p -> In q (posts db'))
  /\ updatePost env' req db'
     = (db', Responded (json 200 "Post updated successfully!" (DataPost p') true)).
Proof.
  intros Hnd Hin Hu Hown Ht Hid p' db'.
  assert (Hnd' : unique_ids (posts db')).
  { unfold unique_ids. cbn [posts db']. rewrite map_id_updateOne. exact Hnd. }
  assert (Hin' : In p' (posts db')).
  { apply in_updateOne_target; assumption. }
  split; [|split; [|split]].
  - rewrite (updatePost_found env req db u (Post._id p) p Ht Hid Hu);
      [reflexivity|].
    rewrite Hown. apply find_matches_owner; assumption.
  - apply post_with_id_in; [exact Hnd'|exact Hin'|reflexivity].
  - intros q Hq Hne. apply in_updateOne_other; assumption.
  - rewrite (updatePost_found env' req db' u (Post._id p) p' Ht Hid Hu).
    + cbn [users posts db' p' Post._id PostModel.set_title].
      rewrite updateOne_set_title_twice. reflexivity.
    + rewrite Hown.
      apply (find_matches_owner (posts db') p' Hnd' Hin').
Qed.

(** X4: the owner's delete. On a store with unique [_id], the creator of
    a post, sending the post's id, gets 200 with an empty payload; the
    store then holds no post under that [_id], every other post is
    still there, and the same request sent again is answered 404. *)
Theorem deletePost_by_owner
        (env env' : Env) (req : Request DeleteBody.t) (db : DB)
        (p : Post.t) (u : UserObject.t) :
  unique_ids (posts db) ->
  In p (posts db) ->
  user req = Some u ->
  UserObject._id u = Post.createdBy p ->
  denotes (DeleteBody.postId (body req)) (Post._id p) ->
  let db' := mkDB (users db) (deleteOne (Post._id p) (posts db)) in
  deletePost env req db
  = (db', Responded (json 200 "Post deleted successfully!" DataNone true))
  /\ (forall q, In q (posts db') -> Post._id q <> Post._id p)
  /\ (forall q, In q (posts db) -> Post._id q <> Post._id p -> In q (posts db'))
  /\ deletePost env' req db'
     = (db', Next (ApiError ("Post with id: " ++ str (DeleteBody.postId (body req))
                               ++ " does not exist!") 404)).
Proof.
  intros Hnd Hin Hu Hown Hid db'.
  assert (Hgone : forall q, In q (posts db') -> Post._id q <> Post._id p).
  { intros q Hq. apply (deleteOne_gone (Post._id p) (posts db) q Hnd Hq). }
  split; [|split; [exact Hgone|split]].
  - rewrite (deletePost_found env req db u (Post._id p) p Hid Hu);
      [reflexivity|].
    rewrite Hown. apply find_matches_owner; assumption.
  - intros q Hq Hne. apply in_deleteOne_other; assumption.
  - apply (deletePost_not_found env' req db' u (Post._id p) Hid Hu).
    apply find_matches_absent. exact Hgone.
Qed.

End OwnerFacts.

(** ** What every request leaves true of the store *)

Lemma not_false_nonempty (v : option string) :
  not_ v = false -> str v <> EmptyString.
Proof.
  destruct v as [s|]; cbn; [|discriminate].
  intros H. apply String.eqb_neq. exact H.
Qed.

Lemma Forall_updateOne (P : Post.t -> Prop) (id : ObjectId)
      (f : Post.t -> Post.t) (ps : list Post.t) :
  (forall p, P p -> P (f p)) -> Forall P ps -> Forall P (updateOne id f ps).
Proof.
  intros Hf. induction 1 as [|a ps Ha Hps IH]; [constructor|].
  cbn. destruct (Post._id a =? id); constructor; auto.
Qed.

Lemma Forall_deleteOne (P : Post.t -> Prop) (id : ObjectId) (ps : list Post.t) :
  Forall P ps -> Forall P (deleteOne id ps).
Proof.
  induction 1 as [|a ps Ha Hps IH]; [constructor|].
  cbn. destruct (Post._id a =? id); [exact Hps|constructor; auto].
Qed.

Section StoreFacts.

Context {bcrypt : Bcrypt} {jwt : JsonWebToken} {mongoose : Mongoose}.
Variable APPLICATION_SECRET : string.

(** The one way in which the users change. *)
Lemma signupUser_users (env : Env) (req : Request SignupBody.t) (db : DB) :
  users (fst (signupUser APPLICATION_SECRET env req db)) = users db
  \/ (signup_fields_missing (body req) = false
      /\ find (UserModel.email_or_username (str (SignupBody.email (body req)))
                 (str (SignupBody.username (body req)))) (users db) = None
      /\ (forall d, In d (users db) -> User._id d <> objectId env)
      /\ signupUser APPLICATION_SECRET env req db
         = (mkDB (users db ++ [signup_document env (body req)]) (posts db),
            Next (ReferenceError "loggedInUser"))).
Proof.
  destruct (signup_fields_missing (body req)) eqn:Hfields.
  { left. rewrite (signupUser_missing APPLICATION_SECRET env req db Hfields).
    reflexivity. }
  destruct (find (UserModel.email_or_username
                    (str (SignupBody.email (body req)))
                    (str (SignupBody.username (body req)))) (users db))
    as [d|] eqn:Hfind.
  { left. rewrite (signupUser_existing APPLICATION_SECRET env req db d Hfields Hfind).
    reflexivity. }
  destruct (existsb (fun x => User._id x =? objectId env) (users db)) eqn:Hfresh.
  { left. unfold signupUser. run_handler.
    fold (signup_fields_missing (body req)). rewrite Hfields, Hfind.
    cbn [users User._id]. rewrite Hfresh. reflexivity. }
  right. repeat split; auto.
  - intros d Hd. apply String.eqb_neq.
    exact (existsb_false_inv _ _ Hfresh d Hd).
  - apply signupUser_new; assumption.
Qed.

Lemma run_users (env : Env) (op : Operation) (db : DB) :
  users (fst (run APPLICATION_SECRET env op db)) = users db
  \/ exists req,
       op = Signup req
       /\ signup_fields_missing (body req) = false
       /\ find (UserModel.email_or_username (str (SignupBody.email (body req)))
                  (str (SignupBody.username (body req)))) (users db) = None
       /\ (forall d, In d (users db) -> User._id d <> objectId env)
       /\ run APPLICATION_SECRET env op db
          = (mkDB (users db ++ [signup_document env (body req)]) (posts db),
             Next (ReferenceError "loggedInUser")).
Proof.
  destruct op as [req|req|req|req|req|req|req]; cbn [run].
  - destruct (signupUser_users env req db) as [H|H]; [left; exact H|].
    right. exists req. tauto.
  - left. rewrite loginUser_reads_only. reflexivity.
  - left. reflexivity.
  - left. unfold createPost. run_handler.
    destruct (not_ _); [reflexivity|].
    destruct (user req); [|reflexivity]. cbn [posts Post._id].
    destruct (existsb _ _); reflexivity.
  - left. reflexivity.
  - left. unfold updatePost. run_handler.
    destruct (not_ _ || not_ _ || negb _); [reflexivity|].
    destruct (user req); [|reflexivity].
    destruct (castObjectId _); [|reflexivity].
    cbn [fst snd]. destruct (find _ _); reflexivity.
  - left. unfold deletePost. run_handler.
    destruct (not_ _ || negb _); [reflexivity|].
    destruct (user req); [|reflexivity].
    destruct (castObjectId _); [|reflexivity].
    cbn [fst snd]. destruct (find _ _); reflexivity.
Qed.

(** X5: users are only ever added, one at a time and by [signupUser]
    alone: after any request the users are those of before, unchanged
    and in the same order, followed by at most the document of a signup
    that passed the field and duplicate checks. *)
Theorem users_only_grow (env : Env) (op : Operation) (db : DB) :
  users (fst (run APPLICATION_SECRET env op db)) = users db
  \/ exists req,
       op = Signup req
       /\ users (fst (run APPLICATION_SECRET env op db))
          = users db ++ [signup_document env (body req)]
       /\ User.password (signup_document env (body req))
          = bcrypt_hash (str (SignupBody.password (body req))) (salt env)
       /\ forall d, In d (users db) ->
            User.email d <> User.email (signup_document env (body req))
            /\ User.username d <> User.username (signup_document env (body req)).
Proof.
  destruct (run_users env op db) as [H|(req & -> & _ & Hfind & _ & Hrun)];
    [left; exact H|].
  right. exists req. rewrite Hrun. repeat split.
  - pose proof (find_none _ _ Hfind d H) as Hm.
    unfold UserModel.email_or_username in Hm. apply orb_false_iff in Hm.
    apply String.eqb_neq. tauto.
  - pose proof (find_none _ _ Hfind d H) as Hm.
    unfold UserModel.email_or_username in Hm. apply orb_false_iff in Hm.
    apply String.eqb_neq. tauto.
Qed.

(** X6: a handler that passes an error to [next] has written nothing,
    with one exception: the ReferenceError of [signupUser], which comes
    after the new user was saved. *)
Theorem errors_write_nothing
        (env : Env) (op : Operation) (db db' : DB) (e : error) :
  run APPLICATION_SECRET env op db = (db', Next e) ->
  db' = db
  \/ exists req,
       op = Signup req
       /\ e = ReferenceError "loggedInUser"
       /\ db' = mkDB (users db ++ [signup_document env (body req)]) (posts db).
Proof.
  destruct op as [req|req|req|req|req|req|req]; cbn [run].
  - intros Hrun.
    destruct (signupUser_users env req db) as [Hsame|(_ & _ & _ & Hnew)].
    + left. rewrite Hrun in Hsame. cbn [fst] in Hsame.
      pose proof (signupUser_posts APPLICATION_SECRET env req db) as Hposts.
      rewrite Hrun in Hposts. cbn [fst] in Hposts.
      destruct db', db. cbn in *. congruence.
    + right. exists req. rewrite Hnew in Hrun. injection Hrun as <- <-. auto.
  - intros Hrun. left.
    pose proof (loginUser_reads_only APPLICATION_SECRET env req db) as H.
    rewrite Hrun in H. exact H.
  - discriminate.
  - unfold createPost. run_handler.
    destruct (not_ _); [intros [= <- _]; auto|].
    destruct (user req); [|intros [= <- _]; auto]. cbn [posts Post._id].
    destruct (existsb _ _); [intros [= <- _]; auto|discriminate].
  - discriminate.
  - unfold updatePost. run_handler.
    destruct (not_ _ || not_ _ || negb _); [intros [= <- _]; auto|].
    destruct (user req); [|intros [= <- _]; auto].
    destruct (castObjectId _); [|intros [= <- _]; auto].
    cbn [fst snd]. destruct (find _ _); [discriminate|intros [= <- _]; auto].
  - unfold deletePost. run_handler.
    destruct (not_ _ || negb _); [intros [= <- _]; auto|].
    destruct (user req); [|intros [= <- _]; auto].
    destruct (castObjectId _); [|intros [= <- _]; auto].
    cbn [fst snd]. destruct (find _ _); [discriminate|intros [= <- _]; auto].
Qed.

(** X7: the uniqueness the store starts with is kept by every request:
    no two posts with one [_id], no two users with one [_id], one email
    or one username. *)
Theorem uniqueness_is_kept (env : Env) (op : Operation) (db : DB) :
  unique_ids (posts db) ->
  unique_users (users db) ->
  unique_ids (posts (fst (run APPLICATION_SECRET env op db)))
  /\ unique_users (users (fst (run APPLICATION_SECRET env op db))).
Proof.
  intros Hposts (Hid & Hemail & Hname).
  split; [apply run_keeps; exact Hposts|].
  destruct (run_users env op db)
    as [->|(req & -> & _ & Hfind & Hfresh & Hrun)];
    [repeat split; assumption|].
  rewrite Hrun. cbn [fst users].
  assert (Hnone : forall d, In d (users db) ->
            User.email d <> str (SignupBody.email (body req))
            /\ User.username d <> str (SignupBody.username (body req))).
  { intros d Hd. pose proof (find_none _ _ Hfind d Hd) as Hm.
    unfold UserModel.email_or_username in Hm. apply orb_false_iff in Hm.
    split; apply String.eqb_neq; tauto. }
  repeat split; apply NoDup_map_snoc; try assumption.
  - intros d Hd. apply (Hnone d Hd).
  - intros d Hd. apply (Hnone d Hd).
Qed.

(** X8: the field checks keep empty strings out of the store: if no
    stored title, full name, email or username is empty, none is after
    any request. *)
Theorem fields_stay_nonempty (env : Env) (op : Operation) (db : DB) :
  fields_nonempty db ->
  fields_nonempty (fst (run APPLICATION_SECRET env op db)).
Proof.
  intros [Hposts Husers]. unfold fields_nonempty.
  destruct op as [req|req|req|req|req|req|req]; cbn [run].
  - rewrite signupUser_posts. split; [exact Hposts|].
    destruct (signupUser_users env req db) as [->|(Hfields & _ & _ & ->)];
      [exact Husers|].
    cbn [fst users]. apply Forall_app. split; [exact Husers|].
    constructor; [|constructor].
    unfold signup_fields_missing in Hfields.
    repeat (apply orb_false_iff in Hfields; destruct Hfields as [Hfields ?]).
    cbn [signup_document User.fullName User.email User.username].
    repeat split; apply not_false_nonempty; assumption.
  - rewrite loginUser_reads_only. split; assumption.
  - split; assumption.
  - unfold createPost. run_handler.
    destruct (not_ _) eqn:Ht; [split; assumption|].
    destruct (user req); [|split; assumption]. cbn [posts Post._id].
    destruct (existsb _ _); [split; assumption|].
    cbn [fst posts users]. split; [|exact Husers].
    apply Forall_app. split; [exact Hposts|].
    constructor; [|constructor]. cbn [Post.title].
    apply not_false_nonempty. exact Ht.
  - split; assumption.
  - unfold updatePost. run_handler.
    destruct (not_ (UpdateBody.title (body req))) eqn:Ht;
      [split; assumption|].
    cbn [orb]. destruct (not_ _ || negb _); [split; assumption|].
    destruct (user req); [|split; assumption].
    destruct (castObjectId _); [|split; assumption].
    cbn [fst snd]. destruct (find _ _); [|split; assumption].
    cbn [fst posts users]. split; [|exact Husers].
    apply Forall_updateOne; [|exact Hposts].
    intros q _. cbn [PostModel.set_title Post.title].
    apply not_false_nonempty. exact Ht.
  - unfold deletePost. run_handler.
    destruct (not_ _ || negb _); [split; assumption|].
    destruct (user req); [|split; assumption].
    destruct (castObjectId _); [|split; assumption].
    cbn [fst snd]. destruct (find _ _); [|split; assumption].
    cbn [fst posts users]. split; [|exact Husers].
    apply Forall_deleteOne. exact Hposts.
Qed.

End StoreFacts.

(** ** Accounts, tokens and routes together *)

Lemma ends_with_append (suffix s : string) :
  Sample.ends_with suffix (s ++ suffix) = true.
Proof.
  induction s as [|a s IH].
  - destruct suffix; cbn [append Sample.ends_with];
      rewrite String.eqb_refl; reflexivity.
  - cbn [append Sample.ends_with]. rewrite IH. apply orb_true_r.
Qed.

Lemma sample_compare_hash : BcryptContract Sample.bcrypt.
Proof.
  constructor. intros password salt. apply ends_with_append.
Qed.

Section AccountFacts.

Context {bcrypt : Bcrypt} {jwt : JsonWebToken} {mongoose : Mongoose}.
Variable APPLICATION_SECRET : string.

Lemma auth_signed {B} (u : UserObject.t) (issued : Z) (tok : string)
      (env : Env) (req : Request B) :
  JwtContract jwt ->
  jwt_sign (mkPayload (Some u) None None) APPLICATION_SECRET expiresIn_1d issued
    = inr tok ->
  authorization req = Some tok ->
  auth APPLICATION_SECRET env req
  = if (now env <? issued + 86400)%Z
    then Proceed (mkRequest (Some tok) (body req) (Some u))
    else Rejected accessDenied TokenExpiredError.
Proof.
  intros HJ Hsign Hauth.
  pose proof (verify_signed jwt HJ (Some u) APPLICATION_SECRET expiresIn_1d
                issued tok (now env) Hsign) as Hverify.
  pose proof (sign_nonempty jwt HJ _ _ _ _ _ Hsign) as Hne.
  apply String.eqb_neq in Hne. unfold expiresIn_1d in Hverify.
  unfold auth, auth_try. rewrite Hauth. cbn [not_ str].
  rewrite Hne, Hverify.
  destruct (now env <? issued + 86400)%Z; reflexivity.
Qed.

Lemma loginUser_by_find (env : Env) (req : Request LoginBody.t) (db db0 : DB) :
  find (UserModel.email_or_username (str (LoginBody.user (body req)))
          (str (LoginBody.user (body req)))) (users db0)
  = find (UserModel.email_or_username (str (LoginBody.user (body req)))
            (str (LoginBody.user (body req)))) (users db) ->
  snd (loginUser APPLICATION_SECRET env req db0)
  = snd (loginUser APPLICATION_SECRET env req db).
Proof.
  unfold loginUser. run_handler. intros Hfind.
  destruct (not_ _ || not_ _); [reflexivity|].
  rewrite <- Hfind. clear Hfind.
  destruct (find _ _); [|reflexivity].
  destruct (bcrypt_compare _ _); cbn [negb]; [|reflexivity].
  destruct (jwt_sign _ _ _ _); reflexivity.
Qed.


(** X10: the post handlers read [req.user] after the field check and
    before any store call: without an identity a request with bad
    fields is answered 400, one with good fields ends in a TypeError
    passed to [next], and in both cases nothing is read or written. *)
Theorem handlers_need_identity
        (env : Env) (c : Request CreateBody.t) (u : Request UpdateBody.t)
        (d : Request DeleteBody.t) (db : DB) :
  user c = None -> user u = None -> user d = None ->
  createPost env c db
  = (db, Next (if not_ (CreateBody.title (body c))
               then ApiError "Required fields are missing!" 400
               else TypeError "Cannot read properties of undefined (reading '_id')"))
  /\ updatePost env u db
     = (db, Next (if not_ (UpdateBody.title (body u))
                     || not_ (UpdateBody.postId (body u))
                     || negb (isValidObjectId (str (UpdateBody.postId (body u))))
                  then ApiError "Required fields are missing" 400
                  else TypeError "Cannot read properties of undefined (reading '_id')"))
  /\ deletePost env d db
     = (db, Next (if not_ (DeleteBody.postId (body d))
                     || negb (isValidObjectId (str (DeleteBody.postId (body d))))
                  then ApiError "Required fields are missing" 400
                  else TypeError "Cannot read properties of undefined (reading '_id')")).
Proof.
  intros Hc Hu Hd. unfold createPost, updatePost, deletePost. run_handler.
  rewrite Hc, Hu, Hd.
  destruct (not_ (CreateBody.title (body c)));
    destruct (not_ _ || not_ _ || negb _);
    destruct (not_ _ || negb _); repeat split.
Qed.

(** X11: the account that a signup leaves in the store can log in, by
    its email and by its username, with the password of the signup:
    given that no stored user has the new email or username in either
    field, the login is answered 200 with the new user (password
    deleted, [_id] the generated one) and a token, and that token,
    presented to [auth] less than 86400 s after the login, is accepted
    with that user as [req.user]. *)
Theorem login_after_signup
        (env env' : Env) (req : Request SignupBody.t) (db : DB)
        (name : option string) :
  BcryptContract bcrypt ->
  JwtContract jwt ->
  APPLICATION_SECRET <> EmptyString ->
  signup_fields_missing (body req) = false ->
  (forall d, In d (users db) ->
     User.email d <> str (SignupBody.email (body req))
     /\ User.username d <> str (SignupBody.username (body req))
     /\ User.email d <> str (SignupBody.username (body req))
     /\ User.username d <> str (SignupBody.email (body req))) ->
  (forall d, In d (users db) -> User._id d <> objectId env) ->
  name = SignupBody.email (body req) \/ name = SignupBody.username (body req) ->
  let db1 := fst (signupUser APPLICATION_SECRET env req db) in
  let o := UserModel.delete_password
             (UserModel.toObject (signup_document env (body req))) in
  exists tok,
    loginUser APPLICATION_SECRET env'
      (mkRequest None (LoginBody.make name (SignupBody.password (body req))) None)
      db1
    = (db1, Responded (json 200 "User login successful!" (DataUser o tok) true))
    /\ UserObject._id o = objectId env
    /\ UserObject.password o = None
    /\ forall B (r : Request B) (later : Env),
         authorization r = Some tok ->
         (now later < now env' + 86400)%Z ->
         auth APPLICATION_SECRET later r
         = Proceed (mkRequest (Some tok) (body r) (Some o)).
Proof.
  intros HB HJ Hsecret Hfields Hnew Hfresh Hname db1 o.
  assert (Hnone : find (UserModel.email_or_username
                          (str (SignupBody.email (body req)))
                          (str (SignupBody.username (body req)))) (users db)
                  = None).
  { apply find_email_or_username_none. intros d Hd.
    destruct (Hnew d Hd) as (E1 & E2 & _). auto. }
  assert (Hdb1 : db1 = mkDB (users db ++ [signup_document env (body req)])
                         (posts db)).
  { unfold db1. rewrite signupUser_new; [reflexivity|assumption..|].
    apply existsb_false_of. intros d Hd. apply String.eqb_neq. auto. }
  pose proof Hfields as Hparts. unfold signup_fields_missing in Hparts.
  repeat (apply orb_false_iff in Hparts; destruct Hparts as [Hparts ?]).
  assert (Hpresent : not_ name = false) by (destruct Hname; subst; assumption).
  set (doc := signup_document env (body req)) in *.
  assert (Hfind : find (UserModel.email_or_username (str name) (str name))
                    (users db1) = Some doc).
  { rewrite Hdb1. cbn [users]. apply find_app_fresh.
    - apply find_email_or_username_none. intros d Hd.
      destruct (Hnew d Hd) as (E1 & E2 & E3 & E4).
      destruct Hname; subst name; auto.
    - apply email_or_username_true.
      destruct Hname; subst name; [left|right]; reflexivity. }
  destruct (sign_succeeds jwt HJ (mkPayload (Some o) None None)
              APPLICATION_SECRET expiresIn_1d (now env') Hsecret) as [tok Htok].
  exists tok. split; [|split; [reflexivity|split; [reflexivity|]]].
  - apply (loginUser_signed APPLICATION_SECRET env' _ db1 doc tok).
    + cbn [body LoginBody.user LoginBody.password]. rewrite Hpresent.
      cbn [orb]. assumption.
    + exact Hfind.
    + cbn [body LoginBody.password]. apply (compare_hash bcrypt HB).
    + exact Htok.
  - intros B r later Hauth Hlt.
    rewrite (auth_signed o (now env') tok later r HJ Htok Hauth).
    apply Z.ltb_lt in Hlt. rewrite Hlt. reflexivity.
Qed.

(** X12: the duplicate check of [signupUser] compares email with email
    and username with username, while [loginUser] looks a name up in
    both fields and takes the first match. A signup whose username is
    the email of a stored user therefore goes through to the save, and a
    login under that name is answered as before the signup: it is
    checked against the older account. *)
Theorem cross_field_signup_is_shadowed
        (env env' : Env) (req : Request SignupBody.t)
        (login : Request LoginBody.t) (db : DB) (d : User.t) :
  In d (users db) ->
  signup_fields_missing (body req) = false ->
  SignupBody.username (body req) = Some (User.email d) ->
  LoginBody.user (body login) = Some (User.email d) ->
  (forall x, In x (users db) ->
     User.email x <> str (SignupBody.email (body req))
     /\ User.username x <> User.email d) ->
  (forall x, In x (users db) -> User._id x <> objectId env) ->
  let db1 := mkDB (users db ++ [signup_document env (body req)]) (posts db) in
  signupUser APPLICATION_SECRET env req db
  = (db1, Next (ReferenceError "loggedInUser"))
  /\ snd (loginUser APPLICATION_SECRET env' login db1)
     = snd (loginUser APPLICATION_SECRET env' login db).
Proof.
  intros Hin Hfields Hname Hlogin Hnew Hfresh db1. split.
  - apply signupUser_new; [exact Hfields| |].
    + apply find_email_or_username_none. rewrite Hname. exact Hnew.
    + apply existsb_false_of. intros x Hx. apply String.eqb_neq. auto.
  - apply loginUser_by_find. rewrite Hlogin. cbn [str users db1].
    destruct (find_some_of
                (UserModel.email_or_username (User.email d) (User.email d))
                (users db) d Hin) as [y Hy].
    { apply email_or_username_true. left. reflexivity. }
    rewrite Hy. apply find_app_found. exact Hy.
Qed.

(** X13: a route guarded by [auth]. The token that a login sent, put in
    the authorization header of a create request with a title, makes
    the post of a user stored at login time: [createdBy] is that user's
    [_id]. From 86400 s after the login on, the same request is answered
    401 and nothing is written. *)
Theorem login_token_creates_post
        (env0 env : Env) (login : Request LoginBody.t)
        (req : Request CreateBody.t) (db0 db1 db : DB)
        (res : Response) (o : UserObject.t) (tok : string) :
  JwtContract jwt ->
  loginUser APPLICATION_SECRET env0 login db0 = (db1, Responded res) ->
  data res = DataUser o tok ->
  authorization req = Some tok ->
  not_ (CreateBody.title (body req)) = false ->
  (forall q, In q (posts db) -> Post._id q <> objectId env) ->
  (exists d, In d (users db0) /\ UserObject._id o = User._id d)
  /\ ((now env < now env0 + 86400)%Z ->
      let p := Post.make (objectId env) (str (CreateBody.title (body req)))
                 (UserObject._id o) in
      guarded APPLICATION_SECRET createPost env req db
      = (mkDB (users db) (posts db ++ [p]),
         Responded (json 201 "Post created successfully!" (DataPost p) true)))
  /\ ((now env0 + 86400 <= now env)%Z ->
      guarded APPLICATION_SECRET createPost env req db
      = (db, Responded accessDenied)).
Proof.
  intros HJ Hlogin Hdata Hauth Ht Hfresh.
  destruct (loginUser_responded APPLICATION_SECRET env0 login db0 db1 res Hlogin)
    as (d & t & Hin & Hsign & Hd).
  rewrite Hd in Hdata. injection Hdata as <- <-.
  pose proof (auth_signed _ (now env0) t env req HJ Hsign Hauth) as Hguard.
  split; [exists d; split; [exact Hin|reflexivity]|split].
  - intros Hlt. apply Z.ltb_lt in Hlt. rewrite Hlt in Hguard.
    unfold guarded. rewrite Hguard.
    apply (createPost_created env
             (mkRequest (Some t) (body req)
                (Some (UserModel.delete_password (UserModel.toObject d))))
             db (UserModel.delete_password (UserModel.toObject d)) Ht eq_refl).
    apply existsb_false_of. intros q Hq. apply String.eqb_neq. auto.
  - intros Hge. apply Z.ltb_ge in Hge. rewrite Hge in Hguard.
    unfold guarded. rewrite Hguard. reflexivity.
Qed.

End AccountFacts.

(** ** The further scenario, run on the sample libraries *)

Lemma scenario_users_unique : unique_users (users Scenario.db_posts).
Proof.
  unfold unique_users. cbn.
  repeat split; (constructor; [intros [H|[]]; discriminate|]);
    (constructor; [intros []|constructor]).
Defined.

Lemma scenario_fields_nonempty : fields_nonempty Scenario.db_posts.
Proof.
  unfold fields_nonempty. cbn. split.
  - constructor; [discriminate|constructor].
  - repeat constructor; discriminate.
Defined.

Lemma create_then_fetch_witness :
  createPost Scenario.env2 Scenario.john_create Scenario.db_users
  = (Scenario.db_posts,
     Responded (json 201 "Post created successfully!"
                  (DataPost Scenario.hello) true))
  /\ exists p,
       Post._id p = objectId Scenario.env2
       /\ fetchAllPosts Scenario.env0 (mkRequest None tt None) Scenario.db_posts
          = (Scenario.db_posts,
             Responded (json 200 "Posts fetched successfully!"
                          (DataPosts (listing Scenario.db_users
                                      ++ [PostModel.populate
                                            (users Scenario.db_users) p]))
                          true)).
Proof.
  assert (Hrun : createPost Scenario.env2 Scenario.john_create Scenario.db_users
                 = (Scenario.db_posts,
                    Responded (json 201 "Post created successfully!"
                                 (DataPost Scenario.hello) true)))
    by reflexivity.
  split; [exact Hrun|].
  destruct (createPost_then_fetchAllPosts Scenario.env2 Scenario.env0
              Scenario.john_create (mkRequest None tt None)
              Scenario.db_users Scenario.db_posts _ Hrun)
    as (p & _ & Hid & _ & _ & Hfetch).
  exists p. split; [exact Hid|exact Hfetch].
Defined.

Lemma owner_update_witness :
  UserObject._id Scenario.john_object = Post.createdBy Scenario.hello
  /\ updatePost Scenario.env2 Scenario.john_update Scenario.db_posts
     = (mkDB [Scenario.john; Scenario.jane]
          [Post.make "507f1f77bcf86cd799439013" "Hello again"
             (User._id Scenario.john)],
        Responded (json 200 "Post updated successfully!"
                     (DataPost (Post.make "507f1f77bcf86cd799439013"
                                  "Hello again" (User._id Scenario.john)))
                     true)).
Proof.
  split; [reflexivity|].
  assert (Hin : In Scenario.hello (posts Scenario.db_posts))
    by (left; reflexivity).
  assert (Hid : denotes (UpdateBody.postId (body Scenario.john_update))
                  (Post._id Scenario.hello)) by (repeat split).
  destruct (updatePost_by_owner Scenario.env2 Scenario.env2
              Scenario.john_update Scenario.db_posts Scenario.hello
              Scenario.john_object scenario_posts_unique Hin
              eq_refl eq_refl eq_refl Hid) as (Hrun & _).
  exact Hrun.
Defined.

Lemma owner_delete_witness :
  UserObject._id Scenario.john_object = Post.createdBy Scenario.hello
  /\ deletePost Scenario.env2 Scenario2.john_delete Scenario.db_posts
     = (Scenario.db_users,
        Responded (json 200 "Post deleted successfully!" DataNone true))
  /\ deletePost Scenario.env2 Scenario2.john_delete Scenario.db_users
     = (Scenario.db_users,
        Next (ApiError "Post with id: 507f1f77bcf86cd799439013 does not exist!"
                404)).
Proof.
  split; [reflexivity|].
  assert (Hin : In Scenario.hello (posts Scenario.db_posts))
    by (left; reflexivity).
  assert (Hid : denotes (DeleteBody.postId (body Scenario2.john_delete))
                  (Post._id Scenario.hello)) by (repeat split).
  destruct (deletePost_by_owner Scenario.env2 Scenario.env2
              Scenario2.john_delete Scenario.db_posts Scenario.hello
              Scenario.john_object scenario_posts_unique Hin
              eq_refl eq_refl Hid) as (Hrun & _ & _ & Hagain).
  split; [exact Hrun|exact Hagain].
Defined.

Lemma errors_write_nothing_witness :
  run Scenario.secret Scenario.env1 (Login Scenario2.wrong_login)
    Scenario.db_users
  = (Scenario.db_users, Next (ApiError "Invalid Password" 401))
  /\ (Scenario.db_users = Scenario.db_users
      \/ exists req,
           Login Scenario2.wrong_login = Signup req
           /\ ApiError "Invalid Password" 401 = ReferenceError "loggedInUser"
           /\ Scenario.db_users
              = mkDB (users Scenario.db_users
                      ++ [signup_document Scenario.env1 (body req)])
                  (posts Scenario.db_users)).
Proof.
  assert (Hrun : run Scenario.secret Scenario.env1
                   (Login Scenario2.wrong_login) Scenario.db_users
                 = (Scenario.db_users, Next (ApiError "Invalid Password" 401)))
    by reflexivity.
  split; [exact Hrun|].
  exact (errors_write_nothing Scenario.secret Scenario.env1
           (Login Scenario2.wrong_login) Scenario.db_users Scenario.db_users
           (ApiError "Invalid Password" 401) Hrun).
Defined.

Lemma uniqueness_witness :
  unique_ids (posts Scenario.db_posts)
  /\ unique_users (users Scenario.db_posts)
  /\ unique_users
       (users (fst (run Scenario.secret Scenario.env2
                      (Signup Scenario2.shadow_signup) Scenario.db_posts))).
Proof.
  split; [exact scenario_posts_unique|split; [exact scenario_users_unique|]].
  exact (proj2 (uniqueness_is_kept Scenario.secret Scenario.env2
                  (Signup Scenario2.shadow_signup) Scenario.db_posts
                  scenario_posts_unique scenario_users_unique)).
Defined.

Lemma fields_nonempty_witness :
  fields_nonempty Scenario.db_posts
  /\ fields_nonempty
       (fst (run Scenario.secret Scenario.env2 (Update Scenario.john_update)
               Scenario.db_posts)).
Proof.
  split; [exact scenario_fields_nonempty|].
  exact (fields_stay_nonempty Scenario.secret Scenario.env2
           (Update Scenario.john_update) Scenario.db_posts
           scenario_fields_nonempty).
Defined.


Lemma need_identity_witness :
  updatePost Scenario.env2 Scenario2.anonymous_update Scenario.db_posts
  = (Scenario.db_posts,
     Next (TypeError "Cannot read properties of undefined (reading '_id')"))
  /\ createPost Scenario.env2
       (mkRequest None (CreateBody.make None) None) Scenario.db_posts
     = (Scenario.db_posts, Next (ApiError "Required fields are missing!" 400)).
Proof.
  destruct (handlers_need_identity Scenario.env2
              (mkRequest None (CreateBody.make None) None)
              Scenario2.anonymous_update
              (mkRequest None (DeleteBody.make None) None)
              Scenario.db_posts eq_refl eq_refl eq_refl)
    as (Hc & Hu & _).
  split; [exact Hu|exact Hc].
Defined.

Lemma login_after_signup_witness :
  BcryptContract Sample.bcrypt
  /\ JwtContract Sample.jwt
  /\ exists tok,
       loginUser Scenario.secret Scenario.env1
         (mkRequest None
            (LoginBody.make (Some "doe.john@example.com") (Some "john.doe.123"))
            None)
         (mkDB [Scenario.john] [])
       = (mkDB [Scenario.john] [],
          Responded (json 200 "User login successful!"
                       (DataUser Scenario.john_object tok) true)).
Proof.
  split; [exact sample_compare_hash|split; [exact SampleFacts.contract|]].
  assert (Hsecret : Scenario.secret <> EmptyString) by discriminate.
  destruct (login_after_signup Scenario.secret Scenario.env0 Scenario.env1
              Scenario.john_signup Scenario.empty
              (Some "doe.john@example.com")
              sample_compare_hash SampleFacts.contract Hsecret eq_refl
              (fun d (H : In d []) => match H with end)
              (fun d (H : In d []) => match H with end)
              (or_introl eq_refl)) as (tok & Hlogin & _).
  exists tok. exact Hlogin.
Defined.

Lemma shadow_witness :
  In Scenario.john (users Scenario.db_users)
  /\ signupUser Scenario.secret Scenario.env2 Scenario2.shadow_signup
       Scenario.db_users
     = (mkDB (users Scenario.db_users
              ++ [signup_document Scenario.env2 (body Scenario2.shadow_signup)])
          [],
        Next (ReferenceError "loggedInUser"))
  /\ snd (loginUser Scenario.secret Scenario.env1 Scenario2.shadow_login
            (mkDB (users Scenario.db_users
                   ++ [signup_document Scenario.env2
                         (body Scenario2.shadow_signup)]) []))
     = Next (ApiError "Invalid Password" 401).
Proof.
  assert (Hin : In Scenario.john (users Scenario.db_users))
    by (left; reflexivity).
  split; [exact Hin|].
  destruct (cross_field_signup_is_shadowed Scenario.secret Scenario.env2
              Scenario.env1 Scenario2.shadow_signup Scenario2.shadow_login
              Scenario.db_users Scenario.john Hin eq_refl eq_refl eq_refl)
    as (Hsignup & Hlogin).
  - intros x [<-|[<-|[]]]; split; discriminate.
  - intros x [<-|[<-|[]]]; discriminate.
  - split; [exact Hsignup|].
    etransitivity; [exact Hlogin|reflexivity].
Defined.

Lemma guarded_create_witness :
  loginUser Scenario.secret Scenario.env0 Scenario.john_login Scenario.db_users
  = (Scenario.db_users,
     Responded (json 200 "User login successful!"
                  (DataUser Scenario.john_object Scenario.john_token) true))
  /\ guarded Scenario.secret createPost Scenario.env2
       Scenario2.create_with_token Scenario.db_users
     = (Scenario.db_posts,
        Responded (json 201 "Post created successfully!"
                     (DataPost Scenario.hello) true))
  /\ guarded Scenario.secret createPost
       (mkEnv 87400 EmptyString "507f1f77bcf86cd799439013")
       Scenario2.create_with_token Scenario.db_users
     = (Scenario.db_users, Responded accessDenied).
Proof.
  assert (Hlogin : loginUser Scenario.secret Scenario.env0 Scenario.john_login
                     Scenario.db_users
                   = (Scenario.db_users,
                      Responded (json 200 "User login successful!"
                                   (DataUser Scenario.john_object
                                      Scenario.john_token) true)))
    by reflexivity.
  split; [exact Hlogin|split].
  - destruct (login_token_creates_post Scenario.secret Scenario.env0
                Scenario.env2 Scenario.john_login Scenario2.create_with_token
                Scenario.db_users Scenario.db_users Scenario.db_users _
                Scenario.john_object Scenario.john_token
                SampleFacts.contract Hlogin eq_refl eq_refl eq_refl
                (fun q (H : In q []) => match H with end))
      as (_ & Hok & _).
    apply Hok. reflexivity.
  - destruct (login_token_creates_post Scenario.secret Scenario.env0
                (mkEnv 87400 EmptyString "507f1f77bcf86cd799439013")
                Scenario.john_login Scenario2.create_with_token
                Scenario.db_users Scenario.db_users Scenario.db_users _
                Scenario.john_object Scenario.john_token
                SampleFacts.contract Hlogin eq_refl eq_refl eq_refl
                (fun q (H : In q []) => match H with end))
      as (_ & _ & Hlate).
    apply Hlate. discriminate.
Defined.

(** * The token round trip

    The issuer and verifier of section 4.2, and what [loginUser] and
    [auth] make of them. *)

Module B64Facts.
Import Base64Url.

Lemma sextet_of_char_of_sextet (s : sextet) :
  sextet_of_char (char_of_sextet s) = Some s.
Proof.
  destruct s as [[[[[[] []] []] []] []] []]; vm_compute; reflexivity.
Qed.

Lemma char_of_sextet_base64url (s : sextet) : is_base64url (char_of_sextet s) = true.
Proof.
  unfold is_base64url. rewrite sextet_of_char_of_sextet. reflexivity.
Qed.

Example base64url_rfc4648 :
  encode "foobar" = "Zm9vYmFy"
  /\ encode "fooba" = "Zm9vYmE"
  /\ encode "foob" = "Zm9vYg"
  /\ decode "Zm9vYg" = Some "foob".
Proof.
  repeat split.
Qed.

Lemma string_ind3 (P : string -> Prop) :
  P EmptyString ->
  (forall a, P (String a EmptyString)) ->
  (forall a b, P (String a (String b EmptyString))) ->
  (forall a b c r, P r -> P (String a (String b (String c r)))) ->
  forall s, P s.
Proof.
  intros H0 H1 H2 H3.
  fix IH 1.
  intros [|a [|b [|c r]]];
    [exact H0|apply H1|apply H2|apply H3; apply IH].
Qed.

Lemma decode_encode (s : string) : decode (encode s) = Some s.
Proof.
  induction s as [|a|a b|a b c r IH] using string_ind3.
  - reflexivity.
  - destruct a as [a0 a1 a2 a3 a4 a5 a6 a7].
    cbn [encode first_of zero decode].
    rewrite !sextet_of_char_of_sextet. reflexivity.
  - destruct a as [a0 a1 a2 a3 a4 a5 a6 a7], b as [b0 b1 b2 b3 b4 b5 b6 b7].
    cbn [encode first_of zero decode].
    rewrite !sextet_of_char_of_sextet. reflexivity.
  - destruct a as [a0 a1 a2 a3 a4 a5 a6 a7], b as [b0 b1 b2 b3 b4 b5 b6 b7],
      c as [c0 c1 c2 c3 c4 c5 c6 c7].
    cbn [encode first_of decode].
    rewrite !sextet_of_char_of_sextet, IH. reflexivity.
Qed.

Lemma encode_base64url (s : string) : all_base64url (encode s) = true.
Proof.
  induction s as [|a|a b|a b c r IH] using string_ind3.
  - reflexivity.
  - destruct a as [a0 a1 a2 a3 a4 a5 a6 a7].
    cbn [encode first_of zero all_base64url].
    rewrite !char_of_sextet_base64url. reflexivity.
  - destruct a as [a0 a1 a2 a3 a4 a5 a6 a7], b as [b0 b1 b2 b3 b4 b5 b6 b7].
    cbn [encode first_of zero all_base64url].
    rewrite !char_of_sextet_base64url. reflexivity.
  - destruct a as [a0 a1 a2 a3 a4 a5 a6 a7], b as [b0 b1 b2 b3 b4 b5 b6 b7],
      c as [c0 c1 c2 c3 c4 c5 c6 c7].
    cbn [encode first_of all_base64url].
    rewrite !char_of_sextet_base64url, IH. reflexivity.
Qed.

End B64Facts.


Module JsonFacts.
Import Json.
Local Open Scope string_scope.

Lemma json_read_write_chars (s rest : string) :
  read_chars (write_chars s (String quote rest)) = Some (s, rest).
Proof.
  induction s as [|a s IH]; [reflexivity|].
  cbn [write_chars]. cbv - [read_chars write_chars] in IH.
  destruct a as [[] [] [] [] [] [] [] []];
    cbv - [read_chars write_chars];
    cbn [read_chars]; cbv - [read_chars write_chars];
    rewrite IH; reflexivity.
Qed.

Lemma json_read_write_string (s rest : string) :
  read_string (write_string s rest) = Some (s, rest).
Proof.
  unfold read_string, write_string.
  change (quote =? quote)%char with true. cbv iota.
  apply json_read_write_chars.
Qed.

Lemma json_read_write_uint (u : Decimal.uint) (c : ascii) (rest : string) :
  digit c = None ->
  read_uint (write_uint u (String c rest)) = (u, String c rest).
Proof.
  intros Hc. induction u; cbn [write_uint read_uint];
    [rewrite Hc; reflexivity|..];
    match goal with
    | |- context [digit ?d] => change (digit d) with (Some Decimal.D0)
                               || change (digit d) with (Some Decimal.D1)
                               || change (digit d) with (Some Decimal.D2)
                               || change (digit d) with (Some Decimal.D3)
                               || change (digit d) with (Some Decimal.D4)
                               || change (digit d) with (Some Decimal.D5)
                               || change (digit d) with (Some Decimal.D6)
                               || change (digit d) with (Some Decimal.D7)
                               || change (digit d) with (Some Decimal.D8)
                               || change (digit d) with (Some Decimal.D9)
    end; cbv iota; rewrite IHu; reflexivity.
Qed.

Lemma json_read_Z_unsigned (u : Decimal.uint) (c : ascii) (rest : string) :
  u <> Decimal.Nil -> digit c = None ->
  read_Z (write_uint u (String c rest))
  = Some (Z.of_int (Decimal.Pos u), String c rest).
Proof.
  intros Hu Hc. unfold read_Z.
  assert (Hsign : expect "-" (write_uint u (String c rest)) = None)
    by (destruct u; [contradiction|reflexivity..]).
  rewrite Hsign, (json_read_write_uint u c rest Hc).
  destruct u; [contradiction|reflexivity..].
Qed.

Lemma json_read_Z_negative (u : Decimal.uint) (c : ascii) (rest : string) :
  u <> Decimal.Nil -> digit c = None ->
  read_Z (String "-" (write_uint u (String c rest)))
  = Some (Z.of_int (Decimal.Neg u), String c rest).
Proof.
  intros Hu Hc. unfold read_Z. cbn [expect].
  change ("-" =? "-")%char with true. cbv iota.
  rewrite (json_read_write_uint u c rest Hc).
  destruct u; [contradiction|reflexivity..].
Qed.

Lemma json_read_write_Z (z : Z) (c : ascii) (rest : string) :
  digit c = None ->
  read_Z (write_Z z (String c rest)) = Some (z, String c rest).
Proof.
  intros Hc. unfold write_Z.
  pose proof (DecimalZ.of_to z) as Hz.
  assert (Hnil : match Z.to_int z with
                 | Decimal.Pos u | Decimal.Neg u => u <> Decimal.Nil
                 end).
  { destruct z; cbn [Z.to_int];
      [discriminate|apply DecimalPos.Unsigned.to_uint_nonnil..]. }
  destruct (Z.to_int z) as [u|u].
  - rewrite (json_read_Z_unsigned u c rest Hnil Hc), Hz. reflexivity.
  - rewrite (json_read_Z_negative u c rest Hnil Hc), Hz. reflexivity.
Qed.

Lemma json_expect_append (lit rest : string) : expect lit (lit ++ rest) = Some rest.
Proof.
  induction lit as [|c lit IH]; [reflexivity|].
  cbn [append expect]. rewrite Ascii.eqb_refl. exact IH.
Qed.

Lemma json_expect_after (c : ascii) (lit rest : string) :
  expect (String c lit) (String c (lit ++ rest)) = Some rest.
Proof.
  cbn [expect]. rewrite Ascii.eqb_refl. apply json_expect_append.
Qed.

Lemma json_read_write_password (p : option string) (rest : string) :
  read_password (write_password p ("," ++ key "username" ++ rest))
  = Some (p, "," ++ key "username" ++ rest).
Proof.
  unfold read_password, write_password. destruct p as [h|].
  - change ("," ++ key "password") with (String "," (key "password")).
    change ("," ++ key "password" ++ ?r)
      with (String "," (key "password" ++ r)).
    rewrite json_expect_after, json_read_write_string. reflexivity.
  - reflexivity.
Qed.

Lemma json_read_write_user (o : UserObject.t) (rest : string) :
  read_user (write_user o rest) = Some (o, rest).
Proof.
  destruct o as [i n e p u]. unfold read_user, write_user.
  cbn [UserObject._id UserObject.fullName UserObject.email
       UserObject.password UserObject.username].
  change ("{" ++ key "_id") with (String "{" (key "_id")).
  change ("," ++ key "fullName") with (String "," (key "fullName")).
  change ("," ++ key "email") with (String "," (key "email")).
  change ("," ++ key "username") with (String "," (key "username")).
  change ("{" ++ key "_id" ++ ?r) with (String "{" (key "_id" ++ r)).
  rewrite json_expect_after, json_read_write_string.
  change ("," ++ key "fullName" ++ ?r) with (String "," (key "fullName" ++ r)).
  rewrite json_expect_after, json_read_write_string.
  change ("," ++ key "email" ++ ?r) with (String "," (key "email" ++ r)).
  rewrite json_expect_after, json_read_write_string.
  rewrite json_read_write_password.
  change ("," ++ key "username" ++ ?r) with (String "," (key "username" ++ r)).
  rewrite json_expect_after, json_read_write_string.
  reflexivity.
Qed.

Lemma json_read_write_claims (u : option UserObject.t) (i e : Z) :
  read_claims u (key "iat" ++ write_Z i ("," ++ key "exp" ++ write_Z e "}"))
  = Some (mkPayload u (Some i) (Some e)).
Proof.
  unfold read_claims.
  rewrite json_expect_append.
  change ("," ++ key "exp" ++ write_Z e "}")
    with (String "," (key "exp" ++ write_Z e "}")).
  rewrite (json_read_write_Z i "," _ eq_refl).
  cbn [expect]. change ("}" =? ",")%char with false. cbv iota.
  change (String "," (key "exp" ++ write_Z e "}"))
    with (("," ++ key "exp") ++ write_Z e "}").
  rewrite json_expect_append.
  rewrite (json_read_write_Z e "}" EmptyString eq_refl).
  reflexivity.
Qed.

Lemma json_read_write_payload (u : option UserObject.t) (i e : Z) :
  read_payload (write_payload u i e) = Some (mkPayload u (Some i) (Some e)).
Proof.
  unfold read_payload, write_payload.
  rewrite json_expect_append. destruct u as [o|].
  - rewrite json_expect_append, json_read_write_user, json_expect_append.
    apply json_read_write_claims.
  - assert (Hno : forall r, expect (key "user") (key "iat" ++ r) = None)
      by reflexivity.
    rewrite Hno. apply json_read_write_claims.
Qed.

End JsonFacts.

Module JwsFacts.
Import Jws.
Local Open Scope string_scope.

Lemma string_append_assoc (a b c : string) : (a ++ b) ++ c = a ++ b ++ c.
Proof.
  induction a as [|x a IH]; [reflexivity|].
  cbn [append]. rewrite IH. reflexivity.
Qed.

Lemma base64url_not_dot (c : ascii) :
  Base64Url.is_base64url c = true -> (c =? ".")%char = false.
Proof.
  intros Hc. destruct (Ascii.eqb_spec c ".") as [->|_]; [|reflexivity].
  discriminate Hc.
Qed.

Lemma segments_last (s : string) :
  Base64Url.all_base64url s = true -> segments s = [s].
Proof.
  induction s as [|c s IH]; [reflexivity|].
  cbn [Base64Url.all_base64url segments]. intros H.
  apply andb_true_iff in H. destruct H as [Hc Hs].
  rewrite (base64url_not_dot c Hc), (IH Hs). reflexivity.
Qed.

Lemma segments_next (s rest : string) :
  Base64Url.all_base64url s = true ->
  segments (s ++ "." ++ rest) = s :: segments rest.
Proof.
  induction s as [|c s IH]; [reflexivity|].
  cbn [Base64Url.all_base64url]. intros H.
  apply andb_true_iff in H. destruct H as [Hc Hs].
  change (String c s ++ "." ++ rest) with (String c (s ++ "." ++ rest)).
  cbn [segments]. rewrite (base64url_not_dot c Hc), (IH Hs). reflexivity.
Qed.

Lemma encode_nonempty (s : string) :
  s <> EmptyString -> nonempty (Base64Url.encode s) = true.
Proof.
  destruct s as [|a [|b [|c r]]]; [contradiction|..]; intros _;
    [destruct a|destruct a, b|destruct a, b, c]; reflexivity.
Qed.

Example header_segment :
  Base64Url.encode header = "eyJhbGciOiJIUzI1NiIsInR5cCI6IkpXVCJ9".
Proof.
  reflexivity.
Qed.

Example payload_segment :
  Base64Url.encode (Json.write_payload (Some Scenario.john_object) 1000 87400)
  = "eyJ1c2VyIjp7Il9pZCI6IjUwN2YxZjc3YmNmODZjZDc5OTQzOTAxMSIsImZ1bGxOYW1lIjoiSm9obiBEb2UiLCJlbWFpbCI6ImRvZS5qb2huQGV4YW1wbGUuY29tIiwidXNlcm5hbWUiOiJkb2Uuam9obiJ9LCJpYXQiOjEwMDAsImV4cCI6ODc0MDB9".
Proof.
  reflexivity.
Qed.

Lemma header_nonempty : nonempty (Base64Url.encode header) = true.
Proof.
  reflexivity.
Qed.

Lemma payload_nonempty (u : option UserObject.t) (i e : Z) :
  nonempty (Base64Url.encode (Json.write_payload u i e)) = true.
Proof.
  apply encode_nonempty. unfold Json.write_payload. discriminate.
Qed.

Section Hmac.

Variable hmac : string -> string -> string.

(** An HMAC-SHA256 value has 32 bytes; what is used of it is that it is
    not empty. *)
Hypothesis hmac_nonempty : forall key message, hmac key message <> EmptyString.

Lemma verify_sign (u : option UserObject.t) (secret : string) (span t : Z) :
  secret <> EmptyString ->
  exists tok,
    sign hmac (mkPayload u None None) secret span t = inr tok
    /\ tok <> EmptyString
    /\ forall clock,
         verify hmac tok secret clock
         = if (clock <? t + span)%Z
           then inr (mkPayload u (Some t) (Some (t + span)%Z))
           else inl TokenExpiredError.
Proof.
  intros Hsecret. unfold sign. apply String.eqb_neq in Hsecret.
  rewrite Hsecret. cbn [exp iat payload_user].
  generalize (Json.write_payload u t (t + span)) (header_nonempty)
             (payload_nonempty u t (t + span))
             (JsonFacts.json_read_write_payload u t (t + span)).
  intros pj Hnh Hnp Hread.
  set (h := Base64Url.encode header) in *.
  set (p := Base64Url.encode pj) in *.
  set (sg := signature hmac secret (h ++ "." ++ p)).
  exists (h ++ "." ++ p ++ "." ++ sg). split; [|split].
  - rewrite string_append_assoc. reflexivity.
  - destruct h; [discriminate Hnh|discriminate].
  - intros clock. unfold verify.
    assert (Hnt : nonempty (h ++ "." ++ p ++ "." ++ sg) = true)
      by (destruct h; [discriminate Hnh|reflexivity]).
    rewrite Hnt. cbn [negb].
    assert (Hh : Base64Url.all_base64url h = true)
      by apply B64Facts.encode_base64url.
    assert (Hp : Base64Url.all_base64url p = true)
      by apply B64Facts.encode_base64url.
    assert (Hs : Base64Url.all_base64url sg = true)
      by apply B64Facts.encode_base64url.
    assert (Hns : nonempty sg = true)
      by (apply encode_nonempty; apply hmac_nonempty).
    rewrite (segments_next h _ Hh), (segments_next p _ Hp), (segments_last _ Hs).
    rewrite Hh, Hp, Hs, Hnh, Hnp, Hns. cbn [andb negb].
    subst h p. rewrite !B64Facts.decode_encode, Hread.
    fold sg. rewrite Hsecret, !String.eqb_refl. cbn [negb exp].
    rewrite Z.ltb_antisym.
    destruct (t + span <=? clock)%Z; reflexivity.
Qed.

End Hmac.

End JwsFacts.

Section TokenFacts.

Context {bcrypt : Bcrypt}.
Variable hmac : string -> string -> string.
Hypothesis hmac_nonempty : forall key message, hmac key message <> EmptyString.
Variable APPLICATION_SECRET : string.

Lemma auth_issued {B} (u : UserObject.t) (issued : Z) (tok : string)
      (env : Env) (req : Request B) :
  tok <> EmptyString ->
  Jws.verify hmac tok APPLICATION_SECRET (now env)
  = (if (now env <? issued + 86400)%Z
     then inr (mkPayload (Some u) (Some issued) (Some (issued + 86400)%Z))
     else inl TokenExpiredError) ->
  authorization req = Some tok ->
  @auth (Jws.jwt hmac) APPLICATION_SECRET B env req
  = if (now env <? issued + 86400)%Z
    then Proceed (mkRequest (Some tok) (body req) (Some u))
    else Rejected accessDenied TokenExpiredError.
Proof.
  intros Hne Hverify Hauth. apply String.eqb_neq in Hne.
  unfold auth, auth_try. rewrite Hauth. cbn [not_ str jwt_verify Jws.jwt].
  rewrite Hne, Hverify.
  destruct (now env <? issued + 86400)%Z; reflexivity.
Qed.

(** C4: the token round trip. A token issued for any snapshot with the
    application secret and [expiresIn: '1d'] verifies under the same
    secret while the clock is below issuance + 86400 s, [jwt.verify]
    returning the snapshot as it was issued and [auth] attaching it as
    [req.user]; from issuance + 86400 s on, verification throws
    TokenExpiredError and [auth] denies the request. A login that passes
    the password check issues such a token, for the user object of its
    response, at the time of the login. *)
Theorem token_round_trip (u : UserObject.t) (issued : Z) :
  APPLICATION_SECRET <> EmptyString ->
  (exists tok,
     @jwt_sign (Jws.jwt hmac) (mkPayload (Some u) None None)
       APPLICATION_SECRET expiresIn_1d issued = inr tok
     /\ forall B (env : Env) (req : Request B),
          authorization req = Some tok ->
          ((now env < issued + 86400)%Z ->
           @jwt_verify (Jws.jwt hmac) tok APPLICATION_SECRET (now env)
           = inr (mkPayload (Some u) (Some issued) (Some (issued + 86400)%Z))
           /\ @auth (Jws.jwt hmac) APPLICATION_SECRET B env req
              = Proceed (mkRequest (Some tok) (body req) (Some u)))
          /\ ((issued + 86400 <= now env)%Z ->
              @jwt_verify (Jws.jwt hmac) tok APPLICATION_SECRET (now env)
              = inl TokenExpiredError
              /\ @auth (Jws.jwt hmac) APPLICATION_SECRET B env req
                 = Rejected accessDenied TokenExpiredError))
  /\ (forall (env0 : Env) (login : Request LoginBody.t) (db : DB) (d : User.t),
        not_ (LoginBody.user (body login))
        || not_ (LoginBody.password (body login)) = false ->
        find (UserModel.email_or_username (str (LoginBody.user (body login)))
                (str (LoginBody.user (body login)))) (users db) = Some d ->
        bcrypt_compare (str (LoginBody.password (body login))) (User.password d)
        = true ->
        let o := UserModel.delete_password (UserModel.toObject d) in
        exists tok,
          @loginUser bcrypt (Jws.jwt hmac) APPLICATION_SECRET env0 login db
          = (db, Responded (json 200 "User login successful!"
                              (DataUser o tok) true))
          /\ forall B (env : Env) (req : Request B),
               authorization req = Some tok ->
               ((now env < now env0 + 86400)%Z ->
                @auth (Jws.jwt hmac) APPLICATION_SECRET B env req
                = Proceed (mkRequest (Some tok) (body req) (Some o)))
               /\ ((now env0 + 86400 <= now env)%Z ->
                   @auth (Jws.jwt hmac) APPLICATION_SECRET B env req
                   = Rejected accessDenied TokenExpiredError)).
Proof.
  intros Hsecret. split.
  - destruct (JwsFacts.verify_sign hmac hmac_nonempty (Some u)
                APPLICATION_SECRET expiresIn_1d issued Hsecret)
      as (tok & Hsign & Hne & Hverify).
    exists tok. split; [exact Hsign|].
    intros B env req Hauth.
    pose proof (auth_issued u issued tok env req Hne (Hverify (now env)) Hauth)
      as Hguard.
    specialize (Hverify (now env)). cbn [jwt_verify Jws.jwt].
    unfold expiresIn_1d in Hverify. split.
    + intros Hlt. apply Z.ltb_lt in Hlt. rewrite Hlt in Hverify, Hguard. auto.
    + intros Hge. apply Z.ltb_ge in Hge. rewrite Hge in Hverify, Hguard. auto.
  - intros env0 login db d Hfields Hfind Hcmp o.
    destruct (JwsFacts.verify_sign hmac hmac_nonempty (Some o)
                APPLICATION_SECRET expiresIn_1d (now env0) Hsecret)
      as (tok & Hsign & Hne & Hverify).
    exists tok. split.
    + exact (@loginUser_signed bcrypt (Jws.jwt hmac) APPLICATION_SECRET
               env0 login db d tok Hfields Hfind Hcmp Hsign).
    + intros B env req Hauth.
      pose proof (auth_issued o (now env0) tok env req Hne
                    (Hverify (now env)) Hauth) as Hguard.
      split.
      * intros Hlt. apply Z.ltb_lt in Hlt. rewrite Hlt in Hguard. exact Hguard.
      * intros Hge. apply Z.ltb_ge in Hge. rewrite Hge in Hguard. exact Hguard.
Qed.

End TokenFacts.

Lemma stand_hmac_nonempty (key message : string) :
  Stand.hmac key message <> EmptyString.
Proof.
  discriminate.
Qed.

Lemma token_round_trip_witness :
  Scenario.secret <> EmptyString
  /\ exists tok,
       @jwt_sign (Jws.jwt Stand.hmac)
         (mkPayload (Some Scenario.john_object) None None)
         Scenario.secret expiresIn_1d 1000 = inr tok
       /\ @auth (Jws.jwt Stand.hmac) Scenario.secret unit Scenario.env1
            (mkRequest (Some tok) tt None)
          = Proceed (mkRequest (Some tok) tt (Some Scenario.john_object))
       /\ @auth (Jws.jwt Stand.hmac) Scenario.secret unit
            (mkEnv 87400 EmptyString EmptyString)
            (mkRequest (Some tok) tt None)
          = Rejected accessDenied TokenExpiredError.
Proof.
  assert (Hsecret : Scenario.secret <> EmptyString) by discriminate.
  split; [exact Hsecret|].
  destruct (token_round_trip (bcrypt := Sample.bcrypt) Stand.hmac
              stand_hmac_nonempty Scenario.secret Scenario.john_object 1000
              Hsecret) as ((tok & Hsign & Hround) & _).
  exists tok. split; [exact Hsign|split].
  - apply (Hround unit Scenario.env1 (mkRequest (Some tok) tt None) eq_refl).
    reflexivity.
  - apply (Hround unit (mkEnv 87400 EmptyString EmptyString)
             (mkRequest (Some tok) tt None) eq_refl).
    discriminate.
Defined.
